(** * Pool scanners of rekall's windows/filescan.py

    A shallow embedding of [rekall/plugins/windows/filescan.py]: the check
    lists of the five pool scanners, the process scanner's structural
    filters, the [psscan] cross-reference against [pslist], and the
    secondary filters of the file and mutant plugins.

    Typed views over memory ([_EPROCESS], [_FILE_OBJECT], ...) are handles
    (type name, address space, offset); their fields are read through the
    accessor functions of an [Overlay], the typed-overlay collaborator the
    plugin consumes.  Python sets are [gset]s and address-space metadata
    is a [gmap]. *)

From stdpp Require Import base gmap sets list strings.
From Stdlib Require Import ZArith Lia Ascii DecimalString.

Local Open Scope string_scope.
Local Open Scope list_scope.
Local Open Scope Z_scope.

(** ** Typed views *)

(** A typed view: the struct name, the name of the address space it is read
    from, and its offset there.  Two views are the same object exactly when
    the three agree; this is the identity Python's [in] tests on a set of
    views. *)
Record Obj := mkObj { obj_type : string; obj_vm : string; obj_offset : Z }.

#[global] Instance Obj_eq_dec : EqDecision Obj.
Proof. solve_decision. Defined.

#[global] Instance Obj_countable : Countable Obj.
Proof.
  apply (inj_countable' (λ o, (obj_type o, obj_vm o, obj_offset o))
                        (λ t, mkObj t.1.1 t.1.2 t.2)).
  by intros [].
Defined.

(** [obj.cast("T")]: the same bytes seen as another struct. *)
Definition cast (t : string) (o : Obj) : Obj :=
  mkObj t (obj_vm o) (obj_offset o).

(** ** Pool headers and address spaces *)

(** Modelled from the spec: the allocation states a signature can allow
    (paged, nonpaged, free); the pool header type is not under src/. *)
Inductive PoolType := PagedPool | NonPagedPool | FreePoolType.

#[global] Instance PoolType_eq_dec : EqDecision PoolType.
Proof. solve_decision. Defined.

(** Modelled from the spec: the pool header candidate of the absent
    [common.PoolScanner], with the fields the spec's data model lists
    (offset, tag, declared size, allocation state, pool index). *)
Record POOL_HEADER := mkPool {
  pool_vm : string;
  pool_offset : Z;
  Tag : string;
  pool_size : Z;
  pool_type : PoolType;
  PoolIndex : Z
}.

(** [pool_obj.FreePool] *)
Definition FreePool (p : POOL_HEADER) : bool :=
  bool_decide (pool_type p = FreePoolType).

(** Modelled from the spec: the address space collaborator, reduced to
    what filescan.py and the scanner use: its name, its capability
    metadata and the pool headers found at the tag matches of a byte scan,
    in scan order. *)
Record AddressSpace := mkAS {
  as_name : string;
  as_metadata : gmap string bool;
  as_pool_headers : list POOL_HEADER
}.

(** [address_space.metadata(name)], used as a condition: an absent key
    gives [None], which is false. *)
Definition metadata (a : AddressSpace) (name : string) : bool :=
  default false (as_metadata a !! name).

(** ** Collaborators *)

(** The type profile.  [get_constant] is used by this file for pool tags
    only; [get_constant_object name] is the value [.v()] of
    [get_constant_object(name, "Pointer")], [None] when the constant is
    absent (a NoneObject). *)
Record Profile := mkProfile {
  get_constant : string → string;
  get_obj_size : string → Z;
  get_constant_object : string → option Z
}.

(** The typed overlay: every field access of filescan.py on a typed view.
    An accessor that takes an address space is one the source calls with
    [vm=...].  Strings that do not resolve are [None]. *)
Record Overlay := mkOverlay {
  IterObject : POOL_HEADER → string → bool → list Obj;
  obj_end : Obj → Z;
  Body : Obj → Obj;
  PointerCount : Obj → Z;
  HandleCount : Obj → Z;
  NameInfo_Name_v : Obj → AddressSpace → option string;
  HandleInfo_SingleEntry_Process_deref : Obj → AddressSpace → Obj;
  (* _EPROCESS *)
  Pcb_DirectoryTableBase : Obj → Z;
  ActiveProcessLinks_Flink : Obj → Z;
  ActiveProcessLinks_Blink : Obj → Z;
  UniqueProcessId : Obj → Z;
  InheritedFromUniqueProcessId : Obj → Z;
  CreateTime : Obj → Z;
  ExitTime : Obj → Z;
  (* _FILE_OBJECT, _DEVICE_OBJECT *)
  FileName_v : Obj → AddressSpace → option string;
  DeviceObject_deref : Obj → AddressSpace → Obj;
  DeviceType_is_valid : Obj → bool;
  file_name_with_drive : Obj → AddressSpace → option string;
  AccessString : Obj → string;
  (* _KMUTANT, _ETHREAD *)
  Header_SignalState : Obj → Z;
  OwnerThread : Obj → Z;
  Cid_UniqueProcess : Obj → Z;
  Cid_UniqueThread : Obj → Z
}.

(** Python truth of a resolved string: [None] and the empty string are
    false. *)
Definition truthy (s : option string) : bool :=
  match s with
  | Some s => negb (String.eqb s "")
  | None => false
  end.

(** ** Checks *)

(** The keyword arguments of [CheckPoolSize]: [min_size=] or
    [condition=]. *)
Inductive SizeArgs :=
| min_size (n : Z)
| condition (f : Z → bool).

(** One entry of a scanner's [checks] list. *)
Inductive Check :=
| PoolTagCheck (tag : string)
| CheckPoolSize (args : SizeArgs)
| CheckPoolType (paged non_paged free : bool)
| CheckPoolIndex (value : Z).

(** Modelled from the spec: the check classes of the absent
    [rekall.plugins.windows.common].  The tag check is exact equality, the
    size check is [declared_size ≥ min_size] or the custom comparator on the
    declared size, the state check is membership in the allowed states, the
    index check is equality with the configured value. *)
Definition check (c : Check) (h : POOL_HEADER) : bool :=
  match c with
  | PoolTagCheck tag => String.eqb (Tag h) tag
  | CheckPoolSize (min_size n) => pool_size h >=? n
  | CheckPoolSize (condition f) => f (pool_size h)
  | CheckPoolType paged non_paged free =>
      match pool_type h with
      | PagedPool => paged
      | NonPagedPool => non_paged
      | FreePoolType => free
      end
  | CheckPoolIndex value => PoolIndex h =? value
  end.

(** Modelled from the spec: the check chain is evaluated in list order and
    rejects at the first failure. *)
Definition run_checks (cs : list Check) (h : POOL_HEADER) : bool :=
  forallb (λ c, check c h) cs.

Definition is_index_check (c : Check) : bool :=
  match c with CheckPoolIndex _ => true | _ => false end.

(** ** The session and its process lister *)

(** The calls [PSScan.collect] makes on its collaborators, in the order it
    makes them. *)
Inductive Event :=
| EvListEprocess
| EvScan (vm : string) (offset maxlen : Z)
| EvTranslate (eprocess : Obj).

#[global] Instance Event_eq_dec : EqDecision Event.
Proof. solve_decision. Defined.

(** The [pslist] plugin.  The machine it lists is live in the sense that
    matters here: what [list_eprocess] returns may depend on everything
    that happened before the call, so a second call need not agree with
    the first. *)
Record PsList := mkPsList {
  list_eprocess : list Event → list Obj;
  virtual_process_from_physical_offset : Obj → Obj
}.

Record Session := mkSession {
  kernel_address_space : AddressSpace;
  plugins_pslist : PsList
}.

(** ** Scanners *)

(** The keyword arguments every scanner is constructed with. *)
Record Kwargs := mkKwargs {
  kw_profile : Profile;
  kw_session : Session;
  kw_address_space : AddressSpace
}.

Record PoolScanner := mkPoolScanner {
  profile : Profile;
  session : Session;
  address_space : AddressSpace;
  checks : list Check
}.

Definition set_checks (cs : list Check) (self : PoolScanner) : PoolScanner :=
  mkPoolScanner (profile self) (session self) (address_space self) cs.

(** Modelled from the spec: [common.PoolScanner.__init__] keeps its keyword
    arguments; a subclass installs the check list. *)
Definition PoolScanner_init (kwargs : Kwargs) : PoolScanner :=
  mkPoolScanner (kw_profile kwargs) (kw_session kwargs)
                (kw_address_space kwargs) [].

(** Modelled from the spec: the [offset]/[maxlen] window of
    [common.PoolScanner.scan]; both are optional. *)
Definition in_window (offset maxlen : option Z) (h : POOL_HEADER) : bool :=
  let start := default 0 offset in
  match offset with Some o => o <=? pool_offset h | None => true end &&
  match maxlen with Some n => pool_offset h <? start + n | None => true end.

(** Modelled from the spec: [common.PoolScanner.scan] yields, in scan
    order, the pool headers of the window that pass the whole check
    chain. *)
Definition PoolScanner_scan (self : PoolScanner) (offset maxlen : option Z)
  : list POOL_HEADER :=
  List.filter (λ h, in_window offset maxlen h && run_checks (checks self) h)
              (as_pool_headers (address_space self)).

(** [PoolScanFile.__init__] *)
Definition PoolScanFile_init (kwargs : Kwargs) : PoolScanner :=
  let self := PoolScanner_init kwargs in
  set_checks
    [ PoolTagCheck (get_constant (profile self) "FILE_POOLTAG");
      CheckPoolSize (min_size (get_obj_size (profile self) "_FILE_OBJECT"));
      CheckPoolType true true true;
      CheckPoolIndex 0 ] self.

(** [PoolScanDriver.__init__]: the parent's list is installed first and
    then replaced. *)
Definition PoolScanDriver_init (kwargs : Kwargs) : PoolScanner :=
  let self := PoolScanFile_init kwargs in
  set_checks
    [ PoolTagCheck (get_constant (profile self) "DRIVER_POOLTAG");
      CheckPoolSize
        (condition (λ x, x >? get_obj_size (profile self) "_DRIVER_OBJECT"));
      CheckPoolType true true true;
      CheckPoolIndex 0 ] self.

(** [PoolScanSymlink.__init__] *)
Definition PoolScanSymlink_init (kwargs : Kwargs) : PoolScanner :=
  let self := PoolScanFile_init kwargs in
  set_checks
    [ PoolTagCheck (get_constant (profile self) "SYMLINK_POOLTAG");
      CheckPoolSize
        (min_size (get_obj_size (profile self) "_OBJECT_SYMBOLIC_LINK"));
      CheckPoolType true true true ] self.

(** [PoolScanMutant.__init__] *)
Definition PoolScanMutant_init (kwargs : Kwargs) : PoolScanner :=
  let self := PoolScanDriver_init kwargs in
  set_checks
    [ PoolTagCheck (get_constant (profile self) "MUTANT_POOLTAG");
      CheckPoolSize (min_size (get_obj_size (profile self) "_KMUTANT"));
      CheckPoolType true true true;
      CheckPoolIndex 0 ] self.

(** The process scanner adds two attributes to the base scanner. *)
Record PoolScanProcess := mkPoolScanProcess {
  base : PoolScanner;
  kernel : Z;
  dtb_alignment : Z
}.

(** Python's [a or b] on an integer that may be a NoneObject. *)
Definition py_or (a : option Z) (b : Z) : Z :=
  match a with
  | Some v => if v =? 0 then b else v
  | None => b
  end.

(** [PoolScanProcess.__init__] *)
Definition PoolScanProcess_init (kwargs : Kwargs) : PoolScanProcess :=
  let self := PoolScanner_init kwargs in
  let kernel :=
    py_or (get_constant_object (profile self) "MmSystemRangeStart")
          0x80000000 in
  let self :=
    set_checks
      [ PoolTagCheck (get_constant (profile self) "EPROCESS_POOLTAG");
        CheckPoolSize (min_size (get_obj_size (profile self) "_EPROCESS"));
        CheckPoolType true true true;
        CheckPoolIndex 0 ] self in
  let dtb_alignment :=
    if metadata (kernel_address_space (session self)) "pae"
    then 0x20 else 0x1000 in
  mkPoolScanProcess self kernel dtb_alignment.

(** The body of the inner loop of [PoolScanProcess.scan] for one object
    header of one pool allocation: each [continue] is an empty result. *)
Definition scan_object (ov : Overlay) (self : PoolScanProcess)
    (pool_obj : POOL_HEADER) (object_header : Obj)
  : list (POOL_HEADER * Obj) :=
  let eprocess := cast "_EPROCESS" (Body ov object_header) in
  if Pcb_DirectoryTableBase ov eprocess =? 0 then []
  else if negb (Pcb_DirectoryTableBase ov eprocess `mod` dtb_alignment self
                =? 0) then []
  else if (ActiveProcessLinks_Flink ov eprocess <? kernel self)
          || (ActiveProcessLinks_Blink ov eprocess <? kernel self) then []
  else [(pool_obj, eprocess)].

(** [PoolScanProcess.scan] *)
Definition PoolScanProcess_scan (ov : Overlay) (self : PoolScanProcess)
    (offset maxlen : option Z) : list (POOL_HEADER * Obj) :=
  flat_map
    (λ pool_obj,
       flat_map (scan_object ov self pool_obj)
                (IterObject ov pool_obj "Process" true))
    (PoolScanner_scan (base self) offset maxlen).

(** What the filters of [PoolScanProcess.scan] let through: a nonzero,
    aligned directory table base and both list pointers at or above the
    boundary. *)
Definition structurally_valid (ov : Overlay) (self : PoolScanProcess)
    (eprocess : Obj) : Prop :=
  Pcb_DirectoryTableBase ov eprocess ≠ 0 ∧
  Pcb_DirectoryTableBase ov eprocess `mod` dtb_alignment self = 0 ∧
  kernel self ≤ ActiveProcessLinks_Flink ov eprocess ∧
  kernel self ≤ ActiveProcessLinks_Blink ov eprocess.

(** ** Plugins *)

(** [profile._STRUCT(offset=..., vm=...)] *)
Definition struct (name : string) (offset : Z) (vm : AddressSpace) : Obj :=
  mkObj name (as_name vm) offset.

(** The attributes of a scanner plugin that filescan.py reads. *)
Record Plugin := mkPlugin {
  plugin_profile : Profile;
  plugin_session : Session;
  plugin_address_space : AddressSpace;
  plugin_kernel_address_space : AddressSpace;
  plugin_args_verbosity : Z
}.

Definition scanner_kwargs (self : Plugin) : Kwargs :=
  mkKwargs (plugin_profile self) (plugin_session self)
           (plugin_address_space self).

(** ['F' if pool_obj.FreePool else ""] *)
Definition allocated_flag (pool_obj : POOL_HEADER) : string :=
  if FreePool pool_obj then "F" else "".

(** *** filescan *)

(** The body of the inner loop of [FileScan.generate_hits]. *)
Definition file_hit (ov : Overlay) (self : Plugin)
    (pool_obj : POOL_HEADER) (object_obj : Obj)
  : list (POOL_HEADER * Obj * Obj) :=
  let file_obj :=
    struct "_FILE_OBJECT" (obj_end ov object_obj)
           (plugin_address_space self) in
  if negb (truthy (FileName_v ov file_obj (plugin_kernel_address_space self)))
  then []
  else
    let device_obj :=
      DeviceObject_deref ov file_obj
        (kernel_address_space (plugin_session self)) in
    if negb (DeviceType_is_valid ov device_obj) then []
    else [(pool_obj, object_obj, file_obj)].

(** [FileScan.generate_hits] *)
Definition FileScan_generate_hits (ov : Overlay) (self : Plugin)
  : list (POOL_HEADER * Obj * Obj) :=
  let scanner := PoolScanFile_init (scanner_kwargs self) in
  flat_map
    (λ pool_obj,
       flat_map (file_hit ov self pool_obj)
                (IterObject ov pool_obj "File" true))
    (PoolScanner_scan scanner None None).

Record FileRow := mkFileRow {
  file_allocated : string;
  file_offset_p : Z;
  file_ptr_count : Z;
  file_hnd_count : Z;
  file_access : string;
  file_owner : Obj;
  file_path : option string
}.

Definition file_row (ov : Overlay) (self : Plugin)
    (hit : POOL_HEADER * Obj * Obj) : FileRow :=
  let '(pool_obj, object_obj, file_obj) := hit in
  let owner_process :=
    HandleInfo_SingleEntry_Process_deref ov object_obj
      (plugin_kernel_address_space self) in
  let filename :=
    file_name_with_drive ov file_obj (plugin_kernel_address_space self) in
  mkFileRow (allocated_flag pool_obj) (obj_offset file_obj)
            (PointerCount ov object_obj) (HandleCount ov object_obj)
            (AccessString ov file_obj) owner_process filename.

(** [FileScan.render]: the rows passed to [renderer.table_row]. *)
Definition FileScan_render (ov : Overlay) (self : Plugin) : list FileRow :=
  map (file_row ov self) (FileScan_generate_hits ov self).

(** *** mutantscan *)

(** The body of the inner loop of [MutantScan.generate_hits]. *)
Definition mutant_hit (ov : Overlay) (self : Plugin)
    (pool_obj : POOL_HEADER) (object_obj : Obj)
  : list (POOL_HEADER * Obj * Obj * option string) :=
  let object_name :=
    NameInfo_Name_v ov object_obj (plugin_kernel_address_space self) in
  if (plugin_args_verbosity self <? 5) && negb (truthy object_name) then []
  else
    let mutant :=
      struct "_KMUTANT" (obj_end ov object_obj) (plugin_address_space self) in
    [(pool_obj, object_obj, mutant, object_name)].

(** [MutantScan.generate_hits] *)
Definition MutantScan_generate_hits (ov : Overlay) (self : Plugin)
  : list (POOL_HEADER * Obj * Obj * option string) :=
  let scanner := PoolScanMutant_init (scanner_kwargs self) in
  flat_map
    (λ pool_obj,
       flat_map (mutant_hit ov self pool_obj)
                (IterObject ov pool_obj "Mutant" true))
    (PoolScanner_scan scanner None None).

(** Python's [str] of an integer. *)
Definition str (z : Z) : string := NilZero.string_of_int (Z.to_int z).

(** ["{0}:{1}".format(a, b)] *)
Definition format_cid (a b : Z) : string :=
  String.append (str a) (String.append ":" (str b)).

Record MutantRow := mkMutantRow {
  mutant_allocated : string;
  mutant_offset_p : Z;
  mutant_ptr_count : Z;
  mutant_hnd_count : Z;
  mutant_signal : Z;
  mutant_thread : Z;
  mutant_cid : string;
  mutant_name : option string
}.

(** The [CID] of the loop body of [MutantScan.render]. *)
Definition mutant_CID (ov : Overlay) (self : Plugin) (mutant : Obj) : string :=
  if OwnerThread ov mutant >? 0x80000000 then
    let thread :=
      struct "_ETHREAD" (OwnerThread ov mutant)
             (plugin_kernel_address_space self) in
    format_cid (Cid_UniqueProcess ov thread) (Cid_UniqueThread ov thread)
  else "".

Definition mutant_row (ov : Overlay) (self : Plugin)
    (hit : POOL_HEADER * Obj * Obj * option string) : MutantRow :=
  let '(pool_obj, object_obj, mutant, _) := hit in
  let CID := mutant_CID ov self mutant in
  mkMutantRow (allocated_flag pool_obj) (obj_offset mutant)
              (PointerCount ov object_obj) (HandleCount ov object_obj)
              (Header_SignalState ov mutant) (OwnerThread ov mutant) CID
              (NameInfo_Name_v ov object_obj
                 (plugin_kernel_address_space self)).

(** [MutantScan.render]: the rows passed to [renderer.table_row]. *)
Definition MutantScan_render (ov : Overlay) (self : Plugin)
  : list MutantRow :=
  map (mutant_row ov self) (MutantScan_generate_hits ov self).

(** *** psscan *)

(** A memory range to scan; [run_type] is [run.data["type"]]. *)
Record Run := mkRun {
  run_start : Z;
  run_length : Z;
  run_address_space : AddressSpace;
  run_type : string
}.

Record PSScan := mkPSScan {
  ps_profile : Profile;
  ps_session : Session;
  generate_memory_ranges : list Run
}.

Record PsRow := mkPsRow {
  allocated : string;
  offset_p : Obj;
  offset_v : Z;
  ppid : Z;
  pdb : Z;
  stat : string;
  process_create_time : option Z;
  process_exit_time : option Z
}.

(** [t or ''] on a timestamp: zero is false and renders blank. *)
Definition or_blank (t : Z) : option Z :=
  if t =? 0 then None else Some t.

(** A computation that calls collaborators: it reads the calls made so far
    and appends its own. *)
Definition M (A : Type) : Type := list Event → A * list Event.

Definition m_ret {A} (a : A) : M A := λ log, (a, log).

Definition m_bind {A B} (m : M A) (k : A → M B) : M B :=
  λ log, let (a, log') := m log in k a log'.

Notation "x <~ m ;; k" := (m_bind m (λ x, k))
  (at level 100, m at next level, right associativity, only parsing).

Definition call (e : Event) : M unit := λ log, (tt, log ++ [e]).

(** A [for] loop whose body yields rows. *)
Fixpoint for_each {A B} (xs : list A) (body : A → M (list B)) : M (list B) :=
  match xs with
  | [] => m_ret []
  | x :: xs =>
      rows <~ body x ;;
      rest <~ for_each xs body ;;
      m_ret (rows ++ rest)
  end.

Definition call_list_eprocess (pslist : PsList) : M (list Obj) :=
  λ log, (list_eprocess pslist log, log ++ [EvListEprocess]).

Definition call_virtual_process_from_physical_offset
    (pslist : PsList) (eprocess : Obj) : M Obj :=
  _ <~ call (EvTranslate eprocess) ;;
  m_ret (virtual_process_from_physical_offset pslist eprocess).

Definition call_scan (ov : Overlay) (scanner : PoolScanProcess)
    (offset maxlen : Z) : M (list (POOL_HEADER * Obj)) :=
  _ <~ call (EvScan (as_name (address_space (base scanner))) offset maxlen) ;;
  m_ret (PoolScanProcess_scan ov scanner (Some offset) (Some maxlen)).

(** The first loop of [PSScan.collect]: one [add] to each set per task. *)
Definition add_task (ov : Overlay) (known : gset Obj * gset Z) (task : Obj)
  : gset Obj * gset Z :=
  (known.1 ∪ {[task]}, known.2 ∪ {[UniqueProcessId ov task]}).

Definition known_sets (ov : Overlay) (tasks : list Obj) : gset Obj * gset Z :=
  foldl (add_task ov) (∅, ∅) tasks.

(** The [known] string of the innermost loop of [PSScan.collect]. *)
Definition status_flags (ov : Overlay)
    (known_eprocess : gset Obj) (known_pids : gset Z)
    (eprocess virtual_eprocess : Obj) : string :=
  let known := "" in
  let known :=
    if bool_decide (virtual_eprocess ∈ known_eprocess)
    then String.append known "E" else known in
  let known :=
    if bool_decide (UniqueProcessId ov eprocess ∈ known_pids)
    then String.append known "P" else known in
  known.

(** The tuple the innermost loop yields. *)
Definition ps_row (ov : Overlay)
    (known_eprocess : gset Obj) (known_pids : gset Z)
    (pool_obj : POOL_HEADER) (eprocess virtual_eprocess : Obj) : PsRow :=
  mkPsRow (allocated_flag pool_obj) eprocess
          (obj_offset virtual_eprocess)
          (InheritedFromUniqueProcessId ov eprocess)
          (Pcb_DirectoryTableBase ov eprocess)
          (status_flags ov known_eprocess known_pids eprocess virtual_eprocess)
          (or_blank (CreateTime ov eprocess))
          (or_blank (ExitTime ov eprocess)).

(** The body of the innermost loop of [PSScan.collect]. *)
Definition collect_hit (ov : Overlay) (pslist : PsList) (run : Run)
    (known_eprocess : gset Obj) (known_pids : gset Z)
    (hit : POOL_HEADER * Obj) : M (list PsRow) :=
  let '(pool_obj, eprocess) := hit in
  virtual_eprocess <~
    (if String.eqb (run_type run) "PhysicalAS"
     then call_virtual_process_from_physical_offset pslist eprocess
     else m_ret eprocess) ;;
  m_ret [ps_row ov known_eprocess known_pids pool_obj eprocess
                virtual_eprocess].

Definition process_scanner (self : PSScan) (run : Run) : PoolScanProcess :=
  PoolScanProcess_init
    (mkKwargs (ps_profile self) (ps_session self) (run_address_space run)).

(** [PSScan.collect] *)
Definition collect (ov : Overlay) (self : PSScan) : M (list PsRow) :=
  let pslist := plugins_pslist (ps_session self) in
  tasks <~ call_list_eprocess pslist ;;
  let '(known_eprocess, known_pids) := known_sets ov tasks in
  for_each (generate_memory_ranges self)
    (λ run,
       let scanner := process_scanner self run in
       hits <~ call_scan ov scanner (run_start run) (run_length run) ;;
       for_each hits (collect_hit ov pslist run known_eprocess known_pids)).

(** The virtual view [collect] tests against [known_eprocess]. *)
Definition virtual_eprocess_of (pslist : PsList) (run : Run) (eprocess : Obj)
  : Obj :=
  if String.eqb (run_type run) "PhysicalAS"
  then virtual_process_from_physical_offset pslist eprocess
  else eprocess.

(** The process candidates [collect] iterates over, run by run. *)
Definition candidates (ov : Overlay) (self : PSScan)
  : list (Run * (POOL_HEADER * Obj)) :=
  flat_map
    (λ run,
       map (pair run)
           (PoolScanProcess_scan ov (process_scanner self run)
              (Some (run_start run)) (Some (run_length run))))
    (generate_memory_ranges self).

(** [runs_to m a P]: from any log, [m] returns [a] and appends only calls
    that satisfy [P]. *)
Definition runs_to {A} (m : M A) (a : A) (P : Event → Prop) : Prop :=
  ∀ log, ∃ evs, m log = (a, log ++ evs) ∧ Forall P evs.

(** The kernel address range as the process scanner of this file decides
    it: an address is a kernel address when it is not below the boundary
    [PoolScanProcess.__init__] takes from the profile, [MmSystemRangeStart]
    or 0x80000000. *)
Definition in_kernel_range (prof : Profile) (address : Z) : Prop :=
  py_or (get_constant_object prof "MmSystemRangeStart") 0x80000000 ≤ address.

(** A call other than [list_eprocess]. *)
Definition not_list_call (e : Event) : Prop := e ≠ EvListEprocess.

(** A status flag is carried by a [stat] string when the character occurs
    in it. *)
Fixpoint has_flag (c : Ascii.ascii) (s : string) : bool :=
  match s with
  | EmptyString => false
  | String a s => Ascii.eqb a c || has_flag c s
  end.

(** *** driverscan and symlinkscan *)

(** The field accesses of the driver and symbolic-link plugins on their
    typed views, further accessors of the typed-overlay collaborator. *)
Record DriverLinkOverlay := mkDriverLinkOverlay {
  (* _DRIVER_OBJECT, _DRIVER_EXTENSION *)
  DriverStart : Obj → Z;
  DriverSize : Obj → Z;
  DriverName_v : Obj → AddressSpace → option string;
  ServiceKeyName_v : Obj → AddressSpace → option string;
  (* _OBJECT_SYMBOLIC_LINK *)
  CreationTime : Obj → Z;
  LinkTarget_v : Obj → AddressSpace → option string
}.

(** The body of the inner loop of [DriverScan.generate_hits]. *)
Definition driver_hit (ov : Overlay) (self : Plugin)
    (pool_obj : POOL_HEADER) (object_obj : Obj)
  : list (POOL_HEADER * Obj * Obj * Obj * option string) :=
  let object_name :=
    NameInfo_Name_v ov object_obj (plugin_kernel_address_space self) in
  let driver_obj :=
    struct "_DRIVER_OBJECT" (obj_end ov object_obj)
           (plugin_address_space self) in
  let extension_obj :=
    struct "_DRIVER_EXTENSION" (obj_end ov driver_obj)
           (plugin_address_space self) in
  [(pool_obj, object_obj, driver_obj, extension_obj, object_name)].

(** [DriverScan.generate_hits] *)
Definition DriverScan_generate_hits (ov : Overlay) (self : Plugin)
  : list (POOL_HEADER * Obj * Obj * Obj * option string) :=
  let scanner := PoolScanDriver_init (scanner_kwargs self) in
  flat_map
    (λ pool_obj,
       flat_map (driver_hit ov self pool_obj)
                (IterObject ov pool_obj "Driver" true))
    (PoolScanner_scan scanner None None).

Record DriverRow := mkDriverRow {
  driver_allocated : string;
  driver_offset_p : Z;
  driver_ptr_count : Z;
  driver_hnd_count : Z;
  driver_start : Z;
  driver_size : Z;
  driver_servicekey : option string;
  driver_name : option string;
  driver_path : option string
}.

Definition driver_row (ov : Overlay) (dl : DriverLinkOverlay) (self : Plugin)
    (hit : POOL_HEADER * Obj * Obj * Obj * option string) : DriverRow :=
  let '(pool_obj, object_obj, driver_obj, extension_obj, object_name) :=
    hit in
  mkDriverRow (allocated_flag pool_obj) (obj_offset driver_obj)
              (PointerCount ov object_obj) (HandleCount ov object_obj)
              (DriverStart dl driver_obj) (DriverSize dl driver_obj)
              (ServiceKeyName_v dl extension_obj
                 (plugin_kernel_address_space self))
              object_name
              (DriverName_v dl driver_obj (plugin_kernel_address_space self)).

(** [DriverScan.render]: the rows passed to [renderer.table_row]. *)
Definition DriverScan_render (ov : Overlay) (dl : DriverLinkOverlay)
    (self : Plugin) : list DriverRow :=
  map (driver_row ov dl self) (DriverScan_generate_hits ov self).

(** The body of the inner loop of [SymLinkScan.generate_hits]. *)
Definition symlink_hit (ov : Overlay) (self : Plugin)
    (pool_obj : POOL_HEADER) (object_obj : Obj)
  : list (POOL_HEADER * Obj * Obj * option string) :=
  let object_name :=
    NameInfo_Name_v ov object_obj (plugin_kernel_address_space self) in
  let link_obj :=
    struct "_OBJECT_SYMBOLIC_LINK" (obj_end ov object_obj)
           (plugin_address_space self) in
  [(pool_obj, object_obj, link_obj, object_name)].

(** [SymLinkScan.generate_hits] *)
Definition SymLinkScan_generate_hits (ov : Overlay) (self : Plugin)
  : list (POOL_HEADER * Obj * Obj * option string) :=
  let scanner := PoolScanSymlink_init (scanner_kwargs self) in
  flat_map
    (λ pool_obj,
       flat_map (symlink_hit ov self pool_obj)
                (IterObject ov pool_obj "SymbolicLink" true))
    (PoolScanner_scan scanner None None).

Record SymlinkRow := mkSymlinkRow {
  symlink_allocated : string;
  symlink_offset_p : Z;
  symlink_ptr_count : Z;
  symlink_hnd_count : Z;
  symlink_creation_time : option Z;
  symlink_from : option string;
  symlink_to : option string
}.

Definition symlink_row (ov : Overlay) (dl : DriverLinkOverlay) (self : Plugin)
    (hit : POOL_HEADER * Obj * Obj * option string) : SymlinkRow :=
  let '(pool_obj, o, link, name) := hit in
  mkSymlinkRow (allocated_flag pool_obj) (obj_offset link)
               (PointerCount ov o) (HandleCount ov o)
               (or_blank (CreationTime dl link))
               name
               (LinkTarget_v dl link (plugin_kernel_address_space self)).

(** [SymLinkScan.render]: the rows passed to [renderer.table_row]. *)
Definition SymLinkScan_render (ov : Overlay) (dl : DriverLinkOverlay)
    (self : Plugin) : list SymlinkRow :=
  map (symlink_row ov dl self) (SymLinkScan_generate_hits ov self).

(** *** The objects and calls behind the plugins' output *)

(** The objects a plugin iterates over: every object of the given kind in
    every pool header its scanner yields, in scan order. *)
Definition scanned_objects (ov : Overlay) (scanner : PoolScanner)
    (kind : string) : list (POOL_HEADER * Obj) :=
  flat_map
    (λ pool_obj, map (pair pool_obj) (IterObject ov pool_obj kind true))
    (PoolScanner_scan scanner None None).

(** The calls [collect] makes while it scans one run: the scan, then one
    translation per hit when the run is physical. *)
Definition run_calls (ov : Overlay) (self : PSScan) (run : Run)
  : list Event :=
  EvScan (as_name (run_address_space run)) (run_start run) (run_length run)
  :: (if String.eqb (run_type run) "PhysicalAS"
      then map (λ hit, EvTranslate hit.2)
               (PoolScanProcess_scan ov (process_scanner self run)
                  (Some (run_start run)) (Some (run_length run)))
      else []).

(** [runs_exactly m a evs]: from any log, [m] returns [a] and appends
    exactly [evs]. *)
Definition runs_exactly {A} (m : M A) (a : A) (evs : list Event) : Prop :=
  ∀ log, m log = (a, log ++ evs).

(** ** A small memory image

    One physical address space with twelve tagged allocations, used to run
    the scanners on concrete input. *)
Module Image.

Definition lookup_or {A} (d : A) (tbl : list (Z * A)) (k : Z) : A :=
  default d (snd <$> List.find (λ e, fst e =? k) tbl).

Definition the_profile : Profile :=
  mkProfile
    (λ name, default "" (list_to_map (M := gmap string string)
       [ ("EPROCESS_POOLTAG", "Proc"); ("FILE_POOLTAG", "File");
         ("DRIVER_POOLTAG", "Driv"); ("SYMLINK_POOLTAG", "Symb");
         ("MUTANT_POOLTAG", "Muta") ] !! name))
    (λ name, default 0 (list_to_map (M := gmap string Z)
       [ ("_EPROCESS", 0x2c0); ("_FILE_OBJECT", 0x80);
         ("_DRIVER_OBJECT", 0xa8); ("_OBJECT_SYMBOLIC_LINK", 0x20);
         ("_KMUTANT", 0x20) ] !! name))
    (λ _, None).

(** The same profile with [MmSystemRangeStart] resolving to [v]. *)
Definition profile_with_range_start (v : Z) : Profile :=
  mkProfile (get_constant the_profile) (get_obj_size the_profile)
    (λ name, if String.eqb name "MmSystemRangeStart" then Some v else None).

Definition pool (offset : Z) (tag : string) (size : Z) (t : PoolType)
    (index : Z) : POOL_HEADER :=
  mkPool "P" offset tag size t index.

Definition physical : AddressSpace :=
  mkAS "P" ∅
    [ pool 0x100 "Proc" 0x300 NonPagedPool 0;
      pool 0x800 "Proc" 0x300 FreePoolType 0;
      pool 0x1000 "Proc" 0x300 NonPagedPool 0;
      pool 0x1800 "Proc" 0x300 NonPagedPool 0;
      pool 0x2000 "Proc" 0x300 NonPagedPool 0;
      pool 0x3000 "File" 0x100 NonPagedPool 0;
      pool 0x3800 "File" 0x100 NonPagedPool 0;
      pool 0x4000 "File" 0x100 NonPagedPool 0;
      pool 0x5000 "Muta" 0x40 NonPagedPool 0;
      pool 0x5800 "Muta" 0x40 NonPagedPool 0;
      pool 0x6000 "Driv" 0xa8 NonPagedPool 0;
      pool 0x7000 "Symb" 0x40 PagedPool 3 ].

Definition kernel_as : AddressSpace := mkAS "K" ∅ [].

Definition kernel_pae : AddressSpace :=
  mkAS "K" {[ "pae" := true ]} [].

(** Every allocation holds one object header 0x10 bytes in; a header is
    0x20 bytes long and its body follows it. *)
Definition the_overlay : Overlay :=
  {| IterObject := λ p _ _,
       [mkObj "_OBJECT_HEADER" (pool_vm p) (pool_offset p + 0x10)];
     obj_end := λ o, obj_offset o + 0x20;
     Body := λ o, mkObj "Body" (obj_vm o) (obj_offset o + 0x20);
     PointerCount := λ _, 1;
     HandleCount := λ _, 0;
     NameInfo_Name_v := λ o _,
       lookup_or None [ (0x5010, Some "Global-Mutex") ] (obj_offset o);
     HandleInfo_SingleEntry_Process_deref := λ o vm,
       mkObj "_EPROCESS" (as_name vm) 0;
     Pcb_DirectoryTableBase := λ o,
       lookup_or 0 [ (0x130, 0x39000); (0x830, 0x3a000); (0x1030, 0);
                     (0x1830, 0x39020); (0x2030, 0x3b000) ] (obj_offset o);
     ActiveProcessLinks_Flink := λ o,
       lookup_or 0x80001000 [ (0x2030, 0x1000) ] (obj_offset o);
     ActiveProcessLinks_Blink := λ _, 0x80002000;
     UniqueProcessId := λ o,
       lookup_or 0 [ (0x130, 4); (0x830, 666) ]
                 (obj_offset o `mod` 0x80000000);
     InheritedFromUniqueProcessId := λ _, 0;
     CreateTime := λ _, 0;
     ExitTime := λ _, 0;
     FileName_v := λ o _,
       lookup_or None [ (0x3030, Some "notepad.exe");
                        (0x3830, Some "calc.exe");
                        (0x4030, Some "") ] (obj_offset o);
     DeviceObject_deref := λ o vm,
       mkObj "_DEVICE_OBJECT" (as_name vm) (obj_offset o);
     DeviceType_is_valid := λ o,
       lookup_or true [ (0x3830, false) ] (obj_offset o);
     file_name_with_drive := λ o _,
       lookup_or None [ (0x3030, Some "C:notepad.exe") ] (obj_offset o);
     AccessString := λ _, "R--r-d";
     Header_SignalState := λ _, 1;
     OwnerThread := λ o,
       lookup_or 0 [ (0x5030, 0x81000000); (0x5830, 0x80000000) ]
                 (obj_offset o);
     Cid_UniqueProcess := λ _, 4;
     Cid_UniqueThread := λ _, 12 |}.

(** The live lister knows one process, the one at physical 0x130. *)
Definition the_pslist : PsList :=
  mkPsList (λ _, [mkObj "_EPROCESS" "K" 0x80000130])
           (λ e, mkObj "_EPROCESS" "K" (obj_offset e + 0x80000000)).

Definition the_session : Session := mkSession kernel_as the_pslist.
Definition pae_session : Session := mkSession kernel_pae the_pslist.

Definition the_plugin (verbosity : Z) : Plugin :=
  mkPlugin the_profile the_session physical kernel_as verbosity.

Definition kwargs : Kwargs := mkKwargs the_profile the_session physical.
Definition pae_kwargs : Kwargs := mkKwargs the_profile pae_session physical.

Definition the_psscan : PSScan :=
  mkPSScan the_profile the_session
           [mkRun 0 0x8000 physical "PhysicalAS"].

Definition header (offset : Z) : Obj :=
  mkObj "_OBJECT_HEADER" "P" (offset + 0x10).

End Image.

(** ** Variations of the image

    A second address space with a driver, a symbolic link and a second
    mutant; a lister that knows nothing; a virtual run; and an overlay
    whose list pointers read as null. *)
Module ImageExt.

Definition physical : AddressSpace :=
  mkAS "P" ∅
    [ Image.pool 0x100 "Proc" 0x300 NonPagedPool 0;
      Image.pool 0x800 "Proc" 0x300 FreePoolType 0;
      Image.pool 0x3000 "File" 0x100 NonPagedPool 0;
      Image.pool 0x5000 "Muta" 0x40 NonPagedPool 0;
      Image.pool 0x5800 "Muta" 0x20 NonPagedPool 0;
      Image.pool 0x6000 "Driv" 0xa8 NonPagedPool 0;
      Image.pool 0x6800 "Driv" 0x1a0 FreePoolType 0;
      Image.pool 0x7000 "Symb" 0x40 PagedPool 3 ].

Definition the_plugin (verbosity : Z) : Plugin :=
  mkPlugin Image.the_profile Image.the_session physical Image.kernel_as
           verbosity.

Definition kwargs : Kwargs :=
  mkKwargs Image.the_profile Image.the_session physical.

Definition the_links : DriverLinkOverlay :=
  {| DriverStart := λ _, 0xf8000000;
     DriverSize := λ _, 0x8000;
     DriverName_v := λ _ _, Some "Driver-Beep";
     ServiceKeyName_v := λ _ _, Some "Beep";
     CreationTime := λ _, 0;
     LinkTarget_v := λ _ _, Some "Device-HarddiskVolume1" |}.

(** The lister that finds no process at all. *)
Definition empty_pslist : PsList :=
  mkPsList (λ _, []) (virtual_process_from_physical_offset Image.the_pslist).

Definition blind_psscan : PSScan :=
  mkPSScan Image.the_profile (mkSession Image.kernel_as empty_pslist)
           [mkRun 0 0x8000 Image.physical "PhysicalAS"].

(** The kernel address space holding the same two process allocations at
    their virtual addresses, scanned as a virtual run. *)
Definition virtual : AddressSpace :=
  mkAS "K" ∅
    [ mkPool "K" 0x80000100 "Proc" 0x300 NonPagedPool 0;
      mkPool "K" 0x80000800 "Proc" 0x300 NonPagedPool 0 ].

Definition virtual_overlay : Overlay :=
  {| IterObject := λ p _ _,
       [mkObj "_OBJECT_HEADER" (pool_vm p) (pool_offset p + 0x10)];
     obj_end := obj_end Image.the_overlay;
     Body := Body Image.the_overlay;
     PointerCount := PointerCount Image.the_overlay;
     HandleCount := HandleCount Image.the_overlay;
     NameInfo_Name_v := NameInfo_Name_v Image.the_overlay;
     HandleInfo_SingleEntry_Process_deref :=
       HandleInfo_SingleEntry_Process_deref Image.the_overlay;
     Pcb_DirectoryTableBase := λ o,
       Pcb_DirectoryTableBase Image.the_overlay
         (mkObj (obj_type o) (obj_vm o) (obj_offset o `mod` 0x80000000));
     ActiveProcessLinks_Flink := ActiveProcessLinks_Flink Image.the_overlay;
     ActiveProcessLinks_Blink := ActiveProcessLinks_Blink Image.the_overlay;
     UniqueProcessId := UniqueProcessId Image.the_overlay;
     InheritedFromUniqueProcessId :=
       InheritedFromUniqueProcessId Image.the_overlay;
     CreateTime := CreateTime Image.the_overlay;
     ExitTime := ExitTime Image.the_overlay;
     FileName_v := FileName_v Image.the_overlay;
     DeviceObject_deref := DeviceObject_deref Image.the_overlay;
     DeviceType_is_valid := DeviceType_is_valid Image.the_overlay;
     file_name_with_drive := file_name_with_drive Image.the_overlay;
     AccessString := AccessString Image.the_overlay;
     Header_SignalState := Header_SignalState Image.the_overlay;
     OwnerThread := OwnerThread Image.the_overlay;
     Cid_UniqueProcess := Cid_UniqueProcess Image.the_overlay;
     Cid_UniqueThread := Cid_UniqueThread Image.the_overlay |}.

Definition virtual_psscan : PSScan :=
  mkPSScan Image.the_profile Image.the_session
           [mkRun 0x80000000 0x8000 virtual "VirtualAS"].

(** The image's overlay with every [Flink] reading as null. *)
Definition null_flink_overlay : Overlay :=
  {| IterObject := IterObject Image.the_overlay;
     obj_end := obj_end Image.the_overlay;
     Body := Body Image.the_overlay;
     PointerCount := PointerCount Image.the_overlay;
     HandleCount := HandleCount Image.the_overlay;
     NameInfo_Name_v := NameInfo_Name_v Image.the_overlay;
     HandleInfo_SingleEntry_Process_deref :=
       HandleInfo_SingleEntry_Process_deref Image.the_overlay;
     Pcb_DirectoryTableBase := Pcb_DirectoryTableBase Image.the_overlay;
     ActiveProcessLinks_Flink := λ _, 0;
     ActiveProcessLinks_Blink := ActiveProcessLinks_Blink Image.the_overlay;
     UniqueProcessId := UniqueProcessId Image.the_overlay;
     InheritedFromUniqueProcessId :=
       InheritedFromUniqueProcessId Image.the_overlay;
     CreateTime := CreateTime Image.the_overlay;
     ExitTime := ExitTime Image.the_overlay;
     FileName_v := FileName_v Image.the_overlay;
     DeviceObject_deref := DeviceObject_deref Image.the_overlay;
     DeviceType_is_valid := DeviceType_is_valid Image.the_overlay;
     file_name_with_drive := file_name_with_drive Image.the_overlay;
     AccessString := AccessString Image.the_overlay;
     Header_SignalState := Header_SignalState Image.the_overlay;
     OwnerThread := OwnerThread Image.the_overlay;
     Cid_UniqueProcess := Cid_UniqueProcess Image.the_overlay;
     Cid_UniqueThread := Cid_UniqueThread Image.the_overlay |}.

End ImageExt.

(** ** Properties of the check lists *)

Section Checks.

Variable kwargs : Kwargs.
Let prof := kw_profile kwargs.

Lemma PoolScanFile_checks :
  checks (PoolScanFile_init kwargs) =
  [ PoolTagCheck (get_constant prof "FILE_POOLTAG");
    CheckPoolSize (min_size (get_obj_size prof "_FILE_OBJECT"));
    CheckPoolType true true true;
    CheckPoolIndex 0 ].
Proof. reflexivity. Qed.

Lemma PoolScanMutant_checks :
  checks (PoolScanMutant_init kwargs) =
  [ PoolTagCheck (get_constant prof "MUTANT_POOLTAG");
    CheckPoolSize (min_size (get_obj_size prof "_KMUTANT"));
    CheckPoolType true true true;
    CheckPoolIndex 0 ].
Proof. reflexivity. Qed.

Lemma PoolScanProcess_checks :
  checks (base (PoolScanProcess_init kwargs)) =
  [ PoolTagCheck (get_constant prof "EPROCESS_POOLTAG");
    CheckPoolSize (min_size (get_obj_size prof "_EPROCESS"));
    CheckPoolType true true true;
    CheckPoolIndex 0 ].
Proof. reflexivity. Qed.

(** A chain that ends in [CheckPoolIndex 0] accepts only index 0. *)
Lemma run_checks_index cs h :
  In (CheckPoolIndex 0) cs → run_checks cs h = true → PoolIndex h = 0.
Proof.
  unfold run_checks. rewrite forallb_forall.
  intros Hin Hall. specialize (Hall _ Hin). simpl in Hall. lia.
Qed.

(** The state check with every state allowed accepts every header. *)
Lemma check_any_state h : check (CheckPoolType true true true) h = true.
Proof. simpl. by destruct (pool_type h). Qed.

End Checks.

(** C6.  The size check of the driver scanner is the custom comparator
    [x > get_obj_size("_DRIVER_OBJECT")]: a pool header passes it exactly
    when its declared size is strictly greater than the size of
    [_DRIVER_OBJECT].  A header whose declared size equals that size fails
    the size check, and with it the driver scanner's whole chain. *)
Theorem driver_size_check_strict (kwargs : Kwargs) (h : POOL_HEADER) :
  let size := get_obj_size (kw_profile kwargs) "_DRIVER_OBJECT" in
  ∃ f,
    checks (PoolScanDriver_init kwargs) =
      [ PoolTagCheck (get_constant (kw_profile kwargs) "DRIVER_POOLTAG");
        CheckPoolSize (condition f);
        CheckPoolType true true true;
        CheckPoolIndex 0 ] ∧
    (check (CheckPoolSize (condition f)) h = true ↔ size < pool_size h) ∧
    (pool_size h = size →
       check (CheckPoolSize (condition f)) h = false ∧
       run_checks (checks (PoolScanDriver_init kwargs)) h = false).
Proof.
  intros size.
  exists (λ x, x >? size). split; [reflexivity|].
  assert (Hiff : check (CheckPoolSize (condition (λ x, x >? size))) h = true
                 ↔ size < pool_size h).
  { simpl. rewrite Z.gtb_ltb. apply Z.ltb_lt. }
  split; [exact Hiff|].
  intros Heq.
  assert (Hf : check (CheckPoolSize (condition (λ x, x >? size))) h = false).
  { apply not_true_is_false. rewrite Hiff. lia. }
  split; [exact Hf|].
  change (run_checks (checks (PoolScanDriver_init kwargs)) h)
    with (check (PoolTagCheck
                   (get_constant (kw_profile kwargs) "DRIVER_POOLTAG")) h
          && (check (CheckPoolSize (condition (λ x, x >? size))) h
              && (check (CheckPoolType true true true) h
                  && (check (CheckPoolIndex 0) h && true)))).
  rewrite Hf. simpl. apply andb_false_r.
Qed.

(** In the image, the allocation tagged [Driv] at 0x6000 declares exactly
    the size of [_DRIVER_OBJECT] and is rejected. *)
Lemma driver_size_check_strict_witness :
  run_checks (checks (PoolScanDriver_init Image.kwargs))
             (Image.pool 0x6000 "Driv" 0xa8 NonPagedPool 0) = false.
Proof.
  destruct (driver_size_check_strict Image.kwargs
              (Image.pool 0x6000 "Driv" 0xa8 NonPagedPool 0))
    as (f & _ & _ & Hreject).
  apply Hreject. reflexivity.
Defined.

(** C10.  The check chain of the symbolic-link scanner is the tag check,
    the minimum-size check and the pool-state check, and nothing else: no
    entry is a pool-index check.  A header with the symlink tag and at
    least the size of [_OBJECT_SYMBOLIC_LINK] is accepted in any pool
    state and with any pool index.  The chains of the file, driver, mutant
    and process scanners accept only headers whose pool index is 0. *)
Theorem symlink_checks_no_index (kwargs : Kwargs) (h : POOL_HEADER) :
  let prof := kw_profile kwargs in
  checks (PoolScanSymlink_init kwargs) =
    [ PoolTagCheck (get_constant prof "SYMLINK_POOLTAG");
      CheckPoolSize (min_size (get_obj_size prof "_OBJECT_SYMBOLIC_LINK"));
      CheckPoolType true true true ] ∧
  existsb is_index_check (checks (PoolScanSymlink_init kwargs)) = false ∧
  (Tag h = get_constant prof "SYMLINK_POOLTAG" →
   get_obj_size prof "_OBJECT_SYMBOLIC_LINK" ≤ pool_size h →
   run_checks (checks (PoolScanSymlink_init kwargs)) h = true) ∧
  (run_checks (checks (PoolScanFile_init kwargs)) h = true →
   PoolIndex h = 0) ∧
  (run_checks (checks (PoolScanDriver_init kwargs)) h = true →
   PoolIndex h = 0) ∧
  (run_checks (checks (PoolScanMutant_init kwargs)) h = true →
   PoolIndex h = 0) ∧
  (run_checks (checks (base (PoolScanProcess_init kwargs))) h = true →
   PoolIndex h = 0).
Proof.
  intros prof. split; [reflexivity|]. split; [reflexivity|].
  split.
  { intros Htag Hsize.
    change (run_checks (checks (PoolScanSymlink_init kwargs)) h)
      with (String.eqb (Tag h) (get_constant prof "SYMLINK_POOLTAG")
            && ((pool_size h >=? get_obj_size prof "_OBJECT_SYMBOLIC_LINK")
                && (check (CheckPoolType true true true) h && true))).
    rewrite check_any_state.
    apply String.eqb_eq in Htag. rewrite Htag. simpl.
    rewrite andb_true_r. apply Z.geb_le. lia. }
  repeat split; apply run_checks_index; simpl; tauto.
Qed.

(** In the image, the allocation tagged [Symb] at 0x7000 has pool index 3
    and paged state, and the symlink chain accepts it. *)
Lemma symlink_checks_no_index_witness :
  run_checks (checks (PoolScanSymlink_init Image.kwargs))
             (Image.pool 0x7000 "Symb" 0x40 PagedPool 3) = true.
Proof.
  apply (symlink_checks_no_index Image.kwargs
           (Image.pool 0x7000 "Symb" 0x40 PagedPool 3)).
  - reflexivity.
  - vm_compute. discriminate.
Defined.

(** ** Properties of the process scanner *)

Section ProcessScan.

Variable ov : Overlay.
Variable self : PoolScanProcess.

Lemma scan_object_accept pool_obj object_header :
  let eprocess := cast "_EPROCESS" (Body ov object_header) in
  structurally_valid ov self eprocess →
  scan_object ov self pool_obj object_header = [(pool_obj, eprocess)].
Proof.
  intros eprocess (Hnz & Hal & Hf & Hb). unfold scan_object.
  fold eprocess.
  destruct (Z.eqb_spec (Pcb_DirectoryTableBase ov eprocess) 0); [lia|].
  rewrite Hal. simpl.
  destruct (Z.ltb_spec (ActiveProcessLinks_Flink ov eprocess) (kernel self));
    [lia|].
  destruct (Z.ltb_spec (ActiveProcessLinks_Blink ov eprocess) (kernel self));
    [lia|].
  reflexivity.
Qed.

Lemma scan_object_In pool_obj object_header hit :
  In hit (scan_object ov self pool_obj object_header) →
  hit = (pool_obj, cast "_EPROCESS" (Body ov object_header)) ∧
  structurally_valid ov self hit.2.
Proof.
  unfold scan_object.
  set (eprocess := cast "_EPROCESS" (Body ov object_header)).
  destruct (Z.eqb_spec (Pcb_DirectoryTableBase ov eprocess) 0);
    [intros []|].
  destruct (Z.eqb_spec
              (Pcb_DirectoryTableBase ov eprocess `mod` dtb_alignment self)
              0); simpl; [|intros []].
  destruct (Z.ltb_spec (ActiveProcessLinks_Flink ov eprocess) (kernel self));
    simpl; [intros []|].
  destruct (Z.ltb_spec (ActiveProcessLinks_Blink ov eprocess) (kernel self));
    simpl; [intros []|].
  intros [<-|[]]. split; [reflexivity|]. by repeat split.
Qed.

Lemma scan_object_reject pool_obj object_header :
  ¬ structurally_valid ov self (cast "_EPROCESS" (Body ov object_header)) →
  scan_object ov self pool_obj object_header = [].
Proof.
  intros Hbad.
  destruct (scan_object ov self pool_obj object_header) as [|hit l] eqn:E;
    [reflexivity|].
  destruct (scan_object_In pool_obj object_header hit) as [-> Hv].
  { rewrite E. by left. }
  by destruct Hbad.
Qed.

(** Everything [scan] yields went through the filters. *)
Lemma PoolScanProcess_scan_In offset maxlen hit :
  In hit (PoolScanProcess_scan ov self offset maxlen) →
  structurally_valid ov self hit.2.
Proof.
  unfold PoolScanProcess_scan. rewrite in_flat_map.
  intros (pool_obj & _ & Hin). apply in_flat_map in Hin.
  destruct Hin as (object_header & _ & Hin).
  by apply scan_object_In in Hin as [_ Hv].
Qed.

End ProcessScan.

(** ** Properties of the call log *)

Lemma runs_to_ret {A} (P : Event → Prop) (a : A) : runs_to (m_ret a) a P.
Proof. intros log. exists []. by rewrite app_nil_r. Qed.

Section Calls.

Context {A B : Type}.
Variable P : Event → Prop.

Lemma runs_to_bind (m : M A) (k : A → M B) a b :
  runs_to m a P → runs_to (k a) b P → runs_to (m_bind m k) b P.
Proof.
  intros Hm Hk log. unfold m_bind.
  destruct (Hm log) as (evs1 & -> & H1).
  destruct (Hk (log ++ evs1)) as (evs2 & -> & H2).
  exists (evs1 ++ evs2). rewrite app_assoc. split; [reflexivity|].
  by apply Forall_app.
Qed.

Lemma runs_to_for_each (xs : list A) (body : A → M (list B)) g :
  (∀ x, In x xs → runs_to (body x) (g x) P) →
  runs_to (for_each xs body) (flat_map g xs) P.
Proof.
  induction xs as [|x xs IH]; intros Hbody; simpl.
  - apply runs_to_ret.
  - intros log. unfold m_bind.
    destruct (Hbody x (or_introl eq_refl) log) as (evs1 & -> & H1).
    destruct (IH (λ y Hy, Hbody y (or_intror Hy)) (log ++ evs1))
      as (evs2 & -> & H2).
    exists (evs1 ++ evs2). unfold m_ret. rewrite app_assoc.
    split; [reflexivity|]. by apply Forall_app.
Qed.

End Calls.

Lemma runs_to_call (P : Event → Prop) e : P e → runs_to (call e) tt P.
Proof. intros He log. exists [e]. split; [reflexivity|]. by constructor. Qed.

Lemma flat_map_singleton {A B} (f : A → B) (l : list A) :
  flat_map (λ x, [f x]) l = map f l.
Proof. induction l as [|x l IH]; simpl; [reflexivity|by rewrite IH]. Qed.

Lemma flat_map_map_pair {A B C} (f : A → list B) (g : A → B → C) l :
  flat_map (λ x, map (g x) (f x)) l =
  map (λ c, g c.1 c.2) (flat_map (λ x, map (pair x) (f x)) l).
Proof.
  induction l as [|x l IH]; simpl; [reflexivity|].
  rewrite map_app, map_map, IH. reflexivity.
Qed.

Lemma Forall2_map_self {A B} (R : A → B → Prop) (f : A → B) l :
  (∀ x, In x l → R x (f x)) → Forall2 R l (map f l).
Proof.
  induction l as [|x l IH]; intros H; simpl; constructor.
  - apply H. by left.
  - apply IH. intros y Hy. apply H. by right.
Qed.

(** ** Properties of [PSScan.collect] *)

Section Collect.

Variable ov : Overlay.

(** The first loop leaves in the two sets exactly the listed tasks and
    their identifiers. *)
Lemma foldl_add_task tasks acc :
  (∀ x, x ∈ (foldl (add_task ov) acc tasks).1 ↔ x ∈ acc.1 ∨ In x tasks) ∧
  (∀ i, i ∈ (foldl (add_task ov) acc tasks).2 ↔
        i ∈ acc.2 ∨ In i (map (UniqueProcessId ov) tasks)).
Proof.
  revert acc. induction tasks as [|task tasks IH]; intros acc; simpl.
  - split; intros; tauto.
  - destruct (IH (add_task ov acc task)) as [IH1 IH2].
    split; intros y; [rewrite IH1|rewrite IH2]; simpl;
      rewrite elem_of_union, elem_of_singleton; intuition congruence.
Qed.

Lemma known_sets_elem tasks :
  (∀ x, x ∈ (known_sets ov tasks).1 ↔ In x tasks) ∧
  (∀ i, i ∈ (known_sets ov tasks).2 ↔
        In i (map (UniqueProcessId ov) tasks)).
Proof.
  destruct (foldl_add_task tasks (∅, ∅)) as [H1 H2].
  split; intros y; [rewrite (H1 y)|rewrite (H2 y)]; simpl;
    rewrite elem_of_empty; tauto.
Qed.

Lemma has_flag_status_flags ke kp eprocess virtual_eprocess :
  (has_flag "E"%char (status_flags ov ke kp eprocess virtual_eprocess) = true
     ↔ virtual_eprocess ∈ ke) ∧
  (has_flag "P"%char (status_flags ov ke kp eprocess virtual_eprocess) = true
     ↔ UniqueProcessId ov eprocess ∈ kp).
Proof.
  unfold status_flags.
  destruct (bool_decide_reflect (virtual_eprocess ∈ ke));
    destruct (bool_decide_reflect (UniqueProcessId ov eprocess ∈ kp));
    simpl; split; split; intros; done.
Qed.

Lemma collect_hit_runs pslist run ke kp hit :
  runs_to (collect_hit ov pslist run ke kp hit)
          [ps_row ov ke kp hit.1 hit.2 (virtual_eprocess_of pslist run hit.2)]
          not_list_call.
Proof.
  destruct hit as [pool_obj eprocess]. unfold collect_hit.
  unfold virtual_eprocess_of. simpl.
  eapply runs_to_bind; [|apply runs_to_ret].
  destruct (String.eqb (run_type run) "PhysicalAS").
  - eapply runs_to_bind; [|apply runs_to_ret].
    by apply runs_to_call.
  - apply runs_to_ret.
Qed.

(** The scan loop of [collect] maps [ps_row] over the candidates and
    calls only the scanner and the translation. *)
Lemma collect_loop_runs self ke kp :
  let pslist := plugins_pslist (ps_session self) in
  runs_to
    (for_each (generate_memory_ranges self)
       (λ run,
          let scanner := process_scanner self run in
          hits <~ call_scan ov scanner (run_start run) (run_length run) ;;
          for_each hits (collect_hit ov pslist run ke kp)))
    (map (λ c, ps_row ov ke kp c.2.1 c.2.2
                 (virtual_eprocess_of pslist c.1 c.2.2))
         (candidates ov self))
    not_list_call.
Proof.
  intros pslist. unfold candidates.
  rewrite <- (flat_map_map_pair
    (λ run, PoolScanProcess_scan ov (process_scanner self run)
              (Some (run_start run)) (Some (run_length run)))
    (λ run hit, ps_row ov ke kp hit.1 hit.2
                  (virtual_eprocess_of pslist run hit.2))).
  apply runs_to_for_each. intros run _. simpl.
  eapply runs_to_bind.
  { eapply runs_to_bind; [|apply runs_to_ret]. by apply runs_to_call. }
  rewrite <- flat_map_singleton.
  apply runs_to_for_each. intros hit _. apply collect_hit_runs.
Qed.

(** [collect] calls [list_eprocess] first and once, then runs the scan
    loop against the two sets built from that answer. *)
Lemma collect_runs self log :
  let pslist := plugins_pslist (ps_session self) in
  let known := known_sets ov (list_eprocess pslist log) in
  ∃ evs,
    collect ov self log =
      (map (λ c, ps_row ov known.1 known.2 c.2.1 c.2.2
                   (virtual_eprocess_of pslist c.1 c.2.2))
           (candidates ov self),
       log ++ EvListEprocess :: evs) ∧
    Forall not_list_call evs.
Proof.
  intros pslist known. unfold collect, m_bind, call_list_eprocess.
  fold pslist. fold known. destruct known as [ke kp].
  destruct (collect_loop_runs self ke kp (log ++ [EvListEprocess]))
    as (evs & Hrun & Hevs).
  exists evs. split; [|exact Hevs].
  etransitivity; [exact Hrun|].
  simpl. by rewrite <- app_assoc.
Qed.

End Collect.

(** Every row of [collect] is the row of a hit of one run's scanner. *)
Lemma collect_row_In (ov : Overlay) (self : PSScan) (log : list Event)
    (row : PsRow) :
  In row (collect ov self log).1 →
  ∃ run hit,
    In run (generate_memory_ranges self) ∧
    In hit (PoolScanProcess_scan ov (process_scanner self run)
              (Some (run_start run)) (Some (run_length run))) ∧
    offset_p row = hit.2 ∧
    pdb row = Pcb_DirectoryTableBase ov hit.2.
Proof.
  destruct (collect_runs ov self log) as (evs & -> & _). simpl.
  rewrite in_map_iff. intros ([run hit] & <- & Hc).
  unfold candidates in Hc. apply in_flat_map in Hc.
  destruct Hc as (run' & Hrun & Hc). apply in_map_iff in Hc.
  destruct Hc as (hit' & [= <- <-] & Hhit).
  exists run', hit'. by repeat split.
Qed.

(** C1.  [collect] calls [list_eprocess] once, as its first call, and
    makes no further call of it: every later call is a scan or an address
    translation.  The two sets built from that one answer hold exactly the
    listed processes and exactly their identifiers.  Row by row, in scan
    order, the row of a candidate carries [E] if and only if the
    candidate's virtual process object is in the first set, and carries
    [P] if and only if its process identifier is in the second; each flag
    depends on its own set only, and all rows are tested against the same
    two sets. *)
Theorem collect_flags_from_one_snapshot
    (ov : Overlay) (self : PSScan) (log : list Event) :
  let pslist := plugins_pslist (ps_session self) in
  let tasks := list_eprocess pslist log in
  let known := known_sets ov tasks in
  ∃ evs,
    (collect ov self log).2 = log ++ EvListEprocess :: evs ∧
    Forall not_list_call evs ∧
    (∀ x, x ∈ known.1 ↔ In x tasks) ∧
    (∀ i, i ∈ known.2 ↔ In i (map (UniqueProcessId ov) tasks)) ∧
    Forall2
      (λ c row,
         offset_p row = c.2.2 ∧
         (has_flag "E"%char (stat row) = true ↔
          virtual_eprocess_of pslist c.1 c.2.2 ∈ known.1) ∧
         (has_flag "P"%char (stat row) = true ↔
          UniqueProcessId ov c.2.2 ∈ known.2))
      (candidates ov self) (collect ov self log).1.
Proof.
  intros pslist tasks known.
  destruct (collect_runs ov self log) as (evs & Hrun & Hevs).
  exists evs. rewrite Hrun. simpl.
  split; [reflexivity|]. split; [exact Hevs|].
  destruct (known_sets_elem ov tasks) as [Hk1 Hk2].
  split; [exact Hk1|]. split; [exact Hk2|].
  apply Forall2_map_self. intros c _. split; [reflexivity|].
  apply has_flag_status_flags.
Qed.

(** On the image: the lister knows the process at 0x130, the scan also
    finds the unlinked one at 0x830; the first row carries both flags and
    the second none. *)
Example collect_image :
  map stat (collect Image.the_overlay Image.the_psscan []).1 = ["EP"; ""] ∧
  (collect Image.the_overlay Image.the_psscan []).2 =
    [ EvListEprocess; EvScan "P" 0 0x8000;
      EvTranslate (mkObj "_EPROCESS" "P" 0x130);
      EvTranslate (mkObj "_EPROCESS" "P" 0x830) ].
Proof. split; vm_compute; reflexivity. Qed.

(** C2.  In the scanner built by [PoolScanProcess.__init__], an object
    whose directory table base is 0, or is not a multiple of the scanner's
    alignment, yields nothing; every hit of [scan] has a nonzero directory
    table base that is a multiple of the alignment; and so has every row
    of [collect]. *)
Theorem scan_rejects_bad_dtb (ov : Overlay) (kwargs : Kwargs) :
  let self := PoolScanProcess_init kwargs in
  (∀ pool_obj object_header,
     let eprocess := cast "_EPROCESS" (Body ov object_header) in
     Pcb_DirectoryTableBase ov eprocess = 0 ∨
     Pcb_DirectoryTableBase ov eprocess `mod` dtb_alignment self ≠ 0 →
     scan_object ov self pool_obj object_header = []) ∧
  (∀ offset maxlen hit,
     In hit (PoolScanProcess_scan ov self offset maxlen) →
     Pcb_DirectoryTableBase ov hit.2 ≠ 0 ∧
     Pcb_DirectoryTableBase ov hit.2 `mod` dtb_alignment self = 0) ∧
  (∀ (psscan : PSScan) log row,
     In row (collect ov psscan log).1 →
     pdb row ≠ 0 ∧
     ∃ run, In run (generate_memory_ranges psscan) ∧
            pdb row `mod` dtb_alignment (process_scanner psscan run) = 0).
Proof.
  intros self. split; [|split].
  - intros pool_obj object_header eprocess Hbad.
    apply scan_object_reject. intros (Hnz & Hal & _). fold eprocess in Hnz, Hal.
    tauto.
  - intros offset maxlen hit Hin.
    apply PoolScanProcess_scan_In in Hin as (Hnz & Hal & _). by split.
  - intros psscan log row Hin.
    apply collect_row_In in Hin as (run & hit & Hrun & Hhit & _ & ->).
    apply PoolScanProcess_scan_In in Hhit as (Hnz & Hal & _).
    split; [exact Hnz|]. by exists run.
Qed.

(** On the image, the candidate at 0x1000 has directory table base 0 and
    the one at 0x1800 has 0x39020, not a page multiple: both yield
    nothing. *)
Lemma scan_rejects_bad_dtb_witness :
  scan_object Image.the_overlay (PoolScanProcess_init Image.kwargs)
    (Image.pool 0x1000 "Proc" 0x300 NonPagedPool 0) (Image.header 0x1000)
    = [] ∧
  scan_object Image.the_overlay (PoolScanProcess_init Image.kwargs)
    (Image.pool 0x1800 "Proc" 0x300 NonPagedPool 0) (Image.header 0x1800)
    = [].
Proof.
  split.
  - apply (proj1 (scan_rejects_bad_dtb Image.the_overlay Image.kwargs)).
    left. reflexivity.
  - apply (proj1 (scan_rejects_bad_dtb Image.the_overlay Image.kwargs)).
    right. vm_compute. discriminate.
Defined.

(** C3.  In the scanner built by [PoolScanProcess.__init__], an object
    whose [Flink] or [Blink] is below the scanner's boundary yields
    nothing; an object that passed the directory-table-base filters and
    has both pointers at or above the boundary is yielded; and the process
    of every row of [collect] has both pointers at or above the
    boundary. *)
Theorem scan_rejects_low_list_pointers (ov : Overlay) (kwargs : Kwargs) :
  let self := PoolScanProcess_init kwargs in
  (∀ pool_obj object_header,
     let eprocess := cast "_EPROCESS" (Body ov object_header) in
     ActiveProcessLinks_Flink ov eprocess < kernel self ∨
     ActiveProcessLinks_Blink ov eprocess < kernel self →
     scan_object ov self pool_obj object_header = []) ∧
  (∀ pool_obj object_header,
     let eprocess := cast "_EPROCESS" (Body ov object_header) in
     Pcb_DirectoryTableBase ov eprocess ≠ 0 →
     Pcb_DirectoryTableBase ov eprocess `mod` dtb_alignment self = 0 →
     kernel self ≤ ActiveProcessLinks_Flink ov eprocess →
     kernel self ≤ ActiveProcessLinks_Blink ov eprocess →
     scan_object ov self pool_obj object_header = [(pool_obj, eprocess)]) ∧
  (∀ (psscan : PSScan) log row,
     In row (collect ov psscan log).1 →
     ∃ run, In run (generate_memory_ranges psscan) ∧
            kernel (process_scanner psscan run)
              ≤ ActiveProcessLinks_Flink ov (offset_p row) ∧
            kernel (process_scanner psscan run)
              ≤ ActiveProcessLinks_Blink ov (offset_p row)).
Proof.
  intros self. split; [|split].
  - intros pool_obj object_header eprocess Hlow.
    apply scan_object_reject. intros (_ & _ & Hf & Hb).
    fold eprocess in Hf, Hb. lia.
  - intros pool_obj object_header eprocess Hnz Hal Hf Hb.
    by apply scan_object_accept.
  - intros psscan log row Hin.
    apply collect_row_In in Hin as (run & hit & Hrun & Hhit & -> & _).
    apply PoolScanProcess_scan_In in Hhit as (_ & _ & Hf & Hb).
    by exists run.
Qed.

(** On the image, the candidate at 0x2000 has [Flink] 0x1000 and yields
    nothing; the one at 0x100 has both pointers above 0x80000000 and is
    yielded. *)
Lemma scan_rejects_low_list_pointers_witness :
  scan_object Image.the_overlay (PoolScanProcess_init Image.kwargs)
    (Image.pool 0x2000 "Proc" 0x300 NonPagedPool 0) (Image.header 0x2000)
    = [] ∧
  scan_object Image.the_overlay (PoolScanProcess_init Image.kwargs)
    (Image.pool 0x100 "Proc" 0x300 NonPagedPool 0) (Image.header 0x100)
    = [ (Image.pool 0x100 "Proc" 0x300 NonPagedPool 0,
         mkObj "_EPROCESS" "P" 0x130) ].
Proof.
  split.
  - apply (proj1 (scan_rejects_low_list_pointers Image.the_overlay
                    Image.kwargs)).
    left. vm_compute. reflexivity.
  - apply (proj1 (proj2 (scan_rejects_low_list_pointers Image.the_overlay
                           Image.kwargs))
             (Image.pool 0x100 "Proc" 0x300 NonPagedPool 0)
             (Image.header 0x100)).
    + vm_compute. discriminate.
    + reflexivity.
    + vm_compute. discriminate.
    + vm_compute. discriminate.
Defined.

(** C4.  [PoolScanProcess.__init__] selects the alignment and stores it
    in the scanner it builds: 0x20 when the kernel address space's
    metadata reports PAE, 0x1000 otherwise.  That is the only place the
    metadata is read.  [scan] decides by the stored field alone: for any
    scanner, whatever its session reports, an object whose directory table
    base is not a multiple of the stored alignment yields nothing, and an
    object with a nonzero directory table base that is a multiple of it
    passes on to the list-pointer filter and, passing that, is yielded.
    So giving a constructed scanner another session afterwards changes
    nothing of what it yields. *)
Theorem dtb_alignment_by_pae (ov : Overlay) (kwargs : Kwargs) :
  let self := PoolScanProcess_init kwargs in
  let alignment :=
    if metadata (kernel_address_space (kw_session kwargs)) "pae"
    then 0x20 else 0x1000 in
  dtb_alignment self = alignment ∧
  (∀ pool_obj object_header,
    let eprocess := cast "_EPROCESS" (Body ov object_header) in
    (Pcb_DirectoryTableBase ov eprocess `mod` alignment ≠ 0 →
     scan_object ov self pool_obj object_header = []) ∧
    (Pcb_DirectoryTableBase ov eprocess ≠ 0 →
     Pcb_DirectoryTableBase ov eprocess `mod` alignment = 0 →
     kernel self ≤ ActiveProcessLinks_Flink ov eprocess →
     kernel self ≤ ActiveProcessLinks_Blink ov eprocess →
     scan_object ov self pool_obj object_header = [(pool_obj, eprocess)])) ∧
  (∀ (scanner : PoolScanProcess) pool_obj object_header,
    dtb_alignment scanner ≠ 0 →
    let eprocess := cast "_EPROCESS" (Body ov object_header) in
    (Pcb_DirectoryTableBase ov eprocess `mod` dtb_alignment scanner ≠ 0 →
     scan_object ov scanner pool_obj object_header = []) ∧
    (Pcb_DirectoryTableBase ov eprocess ≠ 0 →
     Pcb_DirectoryTableBase ov eprocess `mod` dtb_alignment scanner = 0 →
     kernel scanner ≤ ActiveProcessLinks_Flink ov eprocess →
     kernel scanner ≤ ActiveProcessLinks_Blink ov eprocess →
     scan_object ov scanner pool_obj object_header
       = [(pool_obj, eprocess)])) ∧
  (∀ (session' : Session) offset maxlen,
    PoolScanProcess_scan ov
      (mkPoolScanProcess
         (mkPoolScanner (profile (base self)) session'
                        (address_space (base self)) (checks (base self)))
         (kernel self) (dtb_alignment self))
      offset maxlen
    = PoolScanProcess_scan ov self offset maxlen).
Proof.
  intros self alignment.
  assert (Hfield : ∀ (scanner : PoolScanProcess) pool_obj object_header,
    let eprocess := cast "_EPROCESS" (Body ov object_header) in
    (Pcb_DirectoryTableBase ov eprocess `mod` dtb_alignment scanner ≠ 0 →
     scan_object ov scanner pool_obj object_header = []) ∧
    (Pcb_DirectoryTableBase ov eprocess ≠ 0 →
     Pcb_DirectoryTableBase ov eprocess `mod` dtb_alignment scanner = 0 →
     kernel scanner ≤ ActiveProcessLinks_Flink ov eprocess →
     kernel scanner ≤ ActiveProcessLinks_Blink ov eprocess →
     scan_object ov scanner pool_obj object_header
       = [(pool_obj, eprocess)])).
  { intros scanner pool_obj object_header eprocess. split.
    - intros Hbad. apply scan_object_reject. intros (_ & Hmod & _).
      fold eprocess in Hmod. contradiction.
    - intros Hnz Hmod Hf Hb. apply scan_object_accept.
      fold eprocess. by repeat split. }
  assert (Hal : dtb_alignment self = alignment) by reflexivity.
  split; [exact Hal|]. split; [|split].
  - intros pool_obj object_header. rewrite <- Hal. apply Hfield.
  - intros scanner pool_obj object_header _. apply Hfield.
  - intros session' offset maxlen.
    unfold PoolScanProcess_scan, PoolScanner_scan. simpl.
    apply flat_map_ext. intros pool_obj. apply flat_map_ext.
    intros object_header. reflexivity.
Qed.

(** On the image, the candidate at 0x1800 has directory table base
    0x39020: a multiple of 0x20 but not of 0x1000.  It is yielded when the
    kernel address space reports PAE and yields nothing otherwise.  A
    scanner that stores 0x20 accepts it even in a session that reports no
    PAE, and the scanner built under PAE yields the same three hits after
    it is given the session without PAE. *)
Lemma dtb_alignment_by_pae_witness :
  scan_object Image.the_overlay (PoolScanProcess_init Image.pae_kwargs)
    (Image.pool 0x1800 "Proc" 0x300 NonPagedPool 0) (Image.header 0x1800)
    = [ (Image.pool 0x1800 "Proc" 0x300 NonPagedPool 0,
         mkObj "_EPROCESS" "P" 0x1830) ] ∧
  scan_object Image.the_overlay (PoolScanProcess_init Image.kwargs)
    (Image.pool 0x1800 "Proc" 0x300 NonPagedPool 0) (Image.header 0x1800)
    = [] ∧
  scan_object Image.the_overlay
    (mkPoolScanProcess (base (PoolScanProcess_init Image.kwargs))
                       0x80000000 0x20)
    (Image.pool 0x1800 "Proc" 0x300 NonPagedPool 0) (Image.header 0x1800)
    = [ (Image.pool 0x1800 "Proc" 0x300 NonPagedPool 0,
         mkObj "_EPROCESS" "P" 0x1830) ] ∧
  length (PoolScanProcess_scan Image.the_overlay
            (mkPoolScanProcess
               (mkPoolScanner Image.the_profile Image.the_session
                  Image.physical
                  (checks (base (PoolScanProcess_init Image.pae_kwargs))))
               0x80000000 0x20)
            None None) = 3%nat.
Proof.
  split; [|split; [|split]].
  - apply (proj1 (proj2 (dtb_alignment_by_pae Image.the_overlay
             Image.pae_kwargs))
             (Image.pool 0x1800 "Proc" 0x300 NonPagedPool 0)
             (Image.header 0x1800)).
    + vm_compute. discriminate.
    + reflexivity.
    + vm_compute. discriminate.
    + vm_compute. discriminate.
  - apply (proj1 (proj2 (dtb_alignment_by_pae Image.the_overlay
             Image.kwargs))
             (Image.pool 0x1800 "Proc" 0x300 NonPagedPool 0)
             (Image.header 0x1800)).
    vm_compute. discriminate.
  - apply (proj1 (proj2 (proj2 (dtb_alignment_by_pae Image.the_overlay
             Image.kwargs)))
             (mkPoolScanProcess (base (PoolScanProcess_init Image.kwargs))
                                0x80000000 0x20)
             (Image.pool 0x1800 "Proc" 0x300 NonPagedPool 0)
             (Image.header 0x1800)).
    + vm_compute. discriminate.
    + vm_compute. discriminate.
    + reflexivity.
    + vm_compute. discriminate.
    + vm_compute. discriminate.
  - etransitivity.
    + apply (f_equal (@length _)).
      apply (proj2 (proj2 (proj2 (dtb_alignment_by_pae Image.the_overlay
               Image.pae_kwargs))) Image.the_session None None).
    + reflexivity.
Defined.

(** C9.  The boundary of the scanner built by [PoolScanProcess.__init__]
    is 0x80000000 when [MmSystemRangeStart] is absent or resolves to 0,
    and the resolved value when that is nonzero; the list-pointer filter
    of [scan] compares against that boundary. *)
Theorem kernel_boundary_default (ov : Overlay) (kwargs : Kwargs) :
  let self := PoolScanProcess_init kwargs in
  let v := get_constant_object (kw_profile kwargs) "MmSystemRangeStart" in
  (v = None ∨ v = Some 0 → kernel self = 0x80000000) ∧
  (∀ b, v = Some b → b ≠ 0 → kernel self = b) ∧
  (∀ pool_obj object_header,
     let eprocess := cast "_EPROCESS" (Body ov object_header) in
     ActiveProcessLinks_Flink ov eprocess < kernel self ∨
     ActiveProcessLinks_Blink ov eprocess < kernel self →
     scan_object ov self pool_obj object_header = []).
Proof.
  intros self v.
  assert (Hk : kernel self = py_or v 0x80000000) by reflexivity.
  split; [|split].
  - intros [Hv|Hv]; rewrite Hk, Hv; reflexivity.
  - intros b Hv Hb. rewrite Hk, Hv. simpl.
    by destruct (Z.eqb_spec b 0).
  - intros pool_obj object_header eprocess Hlow.
    apply scan_object_reject. intros (_ & _ & Hf & Hb).
    fold eprocess in Hf, Hb. lia.
Qed.

(** On the image's profile the constant is absent and the boundary is
    0x80000000; with the constant resolving to 0xffff080000000000 that is
    the boundary; with it resolving to 0 the default is used again. *)
Lemma kernel_boundary_default_witness :
  kernel (PoolScanProcess_init Image.kwargs) = 0x80000000 ∧
  kernel (PoolScanProcess_init
            (mkKwargs (Image.profile_with_range_start 0xffff080000000000)
                      Image.the_session Image.physical))
    = 0xffff080000000000 ∧
  kernel (PoolScanProcess_init
            (mkKwargs (Image.profile_with_range_start 0)
                      Image.the_session Image.physical))
    = 0x80000000.
Proof.
  split; [|split].
  - apply (proj1 (kernel_boundary_default Image.the_overlay Image.kwargs)).
    left. reflexivity.
  - apply (proj1 (proj2 (kernel_boundary_default Image.the_overlay
             (mkKwargs (Image.profile_with_range_start 0xffff080000000000)
                       Image.the_session Image.physical)))).
    + reflexivity.
    + discriminate.
  - apply (proj1 (kernel_boundary_default Image.the_overlay
             (mkKwargs (Image.profile_with_range_start 0)
                       Image.the_session Image.physical))).
    right. reflexivity.
Defined.

(** ** Properties of the file and mutant plugins *)

Section FileScan.

Variable ov : Overlay.
Variable self : Plugin.

Lemma file_hit_In pool_obj object_obj hit :
  In hit (file_hit ov self pool_obj object_obj) →
  hit = (pool_obj, object_obj,
         struct "_FILE_OBJECT" (obj_end ov object_obj)
                (plugin_address_space self)) ∧
  truthy (FileName_v ov hit.2 (plugin_kernel_address_space self)) = true ∧
  DeviceType_is_valid ov
    (DeviceObject_deref ov hit.2
       (kernel_address_space (plugin_session self))) = true.
Proof.
  unfold file_hit.
  set (file_obj := struct "_FILE_OBJECT" _ _).
  destruct (truthy (FileName_v ov file_obj _)) eqn:Hname;
    simpl; [|intros []].
  destruct (DeviceType_is_valid ov _) eqn:Hdev; simpl; [|intros []].
  intros [<-|[]]. by repeat split.
Qed.

Lemma truthy_Some s : truthy s = true ↔ ∃ name, s = Some name ∧ name ≠ "".
Proof.
  destruct s as [name|]; simpl.
  - rewrite negb_true_iff, String.eqb_neq. split.
    + intros Hne. by exists name.
    + by intros (? & [= <-] & Hne).
  - split; [discriminate|]. by intros (? & [=] & _).
Qed.

End FileScan.

(** C5.  [FileScan.generate_hits] yields nothing for a file object whose
    [FileName] resolves empty or whose device object's [DeviceType] is not
    valid.  Every hit it yields has a [FileName] that resolves to a
    non-empty string and a device type the validity predicate accepts.
    [render] emits one full row per hit, in order, and nothing else. *)
Theorem file_hits_named_with_valid_device (ov : Overlay) (self : Plugin) :
  let kvm := plugin_kernel_address_space self in
  let device_of file_obj :=
    DeviceObject_deref ov file_obj
      (kernel_address_space (plugin_session self)) in
  (∀ pool_obj object_obj,
     let file_obj :=
       struct "_FILE_OBJECT" (obj_end ov object_obj)
              (plugin_address_space self) in
     truthy (FileName_v ov file_obj kvm) = false ∨
     DeviceType_is_valid ov (device_of file_obj) = false →
     file_hit ov self pool_obj object_obj = []) ∧
  (∀ hit,
     In hit (FileScan_generate_hits ov self) →
     (∃ name, FileName_v ov hit.2 kvm = Some name ∧ name ≠ "") ∧
     DeviceType_is_valid ov (device_of hit.2) = true) ∧
  FileScan_render ov self =
    map (file_row ov self) (FileScan_generate_hits ov self) ∧
  length (FileScan_render ov self) =
    length (FileScan_generate_hits ov self).
Proof.
  intros kvm device_of. split; [|split; [|split]].
  - intros pool_obj object_obj file_obj Hbad.
    destruct (file_hit ov self pool_obj object_obj) as [|hit l] eqn:E;
      [reflexivity|].
    destruct (file_hit_In ov self pool_obj object_obj hit)
      as (-> & Hname & Hdev).
    { rewrite E. by left. }
    simpl in Hname, Hdev. fold file_obj in Hname, Hdev.
    fold kvm in Hname. fold (device_of file_obj) in Hdev.
    destruct Hbad; congruence.
  - intros hit Hin. unfold FileScan_generate_hits in Hin.
    apply in_flat_map in Hin as (pool_obj & _ & Hin).
    apply in_flat_map in Hin as (object_obj & _ & Hin).
    apply file_hit_In in Hin as (_ & Hname & Hdev).
    split; [by apply truthy_Some|exact Hdev].
  - reflexivity.
  - unfold FileScan_render. apply length_map.
Qed.

(** On the image: the file at 0x3000 is named and on a valid device and
    gives the one row; the file at 0x3800 is on an invalid device and the
    one at 0x4000 has an empty name, and neither gives a hit. *)
Lemma file_hits_named_with_valid_device_witness :
  file_hit Image.the_overlay (Image.the_plugin 1)
    (Image.pool 0x3800 "File" 0x100 NonPagedPool 0) (Image.header 0x3800)
    = [] ∧
  file_hit Image.the_overlay (Image.the_plugin 1)
    (Image.pool 0x4000 "File" 0x100 NonPagedPool 0) (Image.header 0x4000)
    = [] ∧
  length (FileScan_render Image.the_overlay (Image.the_plugin 1)) = 1%nat.
Proof.
  split; [|split].
  - apply (proj1 (file_hits_named_with_valid_device Image.the_overlay
                    (Image.the_plugin 1))).
    right. reflexivity.
  - apply (proj1 (file_hits_named_with_valid_device Image.the_overlay
                    (Image.the_plugin 1))).
    left. reflexivity.
  - rewrite (proj2 (proj2 (proj2 (file_hits_named_with_valid_device
               Image.the_overlay (Image.the_plugin 1))))).
    reflexivity.
Defined.

(** C7.  For an object of a pool allocation that passed the mutant check
    chain: with verbosity below 5 and an empty resolved name,
    [MutantScan.generate_hits] yields nothing; with verbosity 5 or more it
    yields the mutant whatever its name; a mutant with a non-empty name is
    yielded at every verbosity.  On the whole plugin: below verbosity 5
    every hit and every row of [render] has a non-empty name, and at
    verbosity 5 or more, as for a named mutant at any verbosity, the
    mutant of every object of every pool header the mutant scanner yields
    is among the hits and its row is among the rows of [render]. *)
Theorem mutant_hit_verbosity (ov : Overlay) (self : Plugin)
    (pool_obj : POOL_HEADER) (object_obj : Obj) :
  let name :=
    NameInfo_Name_v ov object_obj (plugin_kernel_address_space self) in
  let mutant :=
    struct "_KMUTANT" (obj_end ov object_obj) (plugin_address_space self) in
  (plugin_args_verbosity self < 5 → truthy name = false →
   mutant_hit ov self pool_obj object_obj = []) ∧
  (5 ≤ plugin_args_verbosity self →
   mutant_hit ov self pool_obj object_obj
     = [(pool_obj, object_obj, mutant, name)]) ∧
  (truthy name = true →
   mutant_hit ov self pool_obj object_obj
     = [(pool_obj, object_obj, mutant, name)]) ∧
  (plugin_args_verbosity self < 5 →
   ∀ row, In row (MutantScan_render ov self) →
          truthy (mutant_name row) = true) ∧
  (plugin_args_verbosity self < 5 →
   ∀ hit, In hit (MutantScan_generate_hits ov self) →
          truthy hit.2 = true) ∧
  (5 ≤ plugin_args_verbosity self ∨ truthy name = true →
   In pool_obj
      (PoolScanner_scan (PoolScanMutant_init (scanner_kwargs self))
         None None) →
   In object_obj (IterObject ov pool_obj "Mutant" true) →
   In (pool_obj, object_obj, mutant, name)
      (MutantScan_generate_hits ov self) ∧
   In (mutant_row ov self (pool_obj, object_obj, mutant, name))
      (MutantScan_render ov self)).
Proof.
  intros name mutant.
  assert (Hlow : plugin_args_verbosity self < 5 →
                 ∀ hit, In hit (MutantScan_generate_hits ov self) →
                        truthy hit.2 = true).
  { intros Hv hit Hin. unfold MutantScan_generate_hits in Hin.
    apply in_flat_map in Hin as (p & _ & Hin).
    apply in_flat_map in Hin as (o & _ & Hin).
    unfold mutant_hit in Hin.
    destruct (Z.ltb_spec (plugin_args_verbosity self) 5); [|lia].
    destruct (truthy (NameInfo_Name_v ov o _)) eqn:Hname; simpl in Hin;
      [|destruct Hin].
    destruct Hin as [<-|[]]. exact Hname. }
  assert (Hyield : 5 ≤ plugin_args_verbosity self ∨ truthy name = true →
                   mutant_hit ov self pool_obj object_obj
                     = [(pool_obj, object_obj, mutant, name)]).
  { unfold mutant_hit. fold name. fold mutant. intros [Hv|Hname].
    - destruct (Z.ltb_spec (plugin_args_verbosity self) 5);
        [lia|reflexivity].
    - rewrite Hname. by rewrite andb_false_r. }
  split; [|split; [|split; [|split; [|split]]]].
  - intros Hv Hname. unfold mutant_hit. fold name. rewrite Hname.
    destruct (Z.ltb_spec (plugin_args_verbosity self) 5); [reflexivity|lia].
  - intros Hv. apply Hyield. by left.
  - intros Hname. apply Hyield. by right.
  - intros Hv row. unfold MutantScan_render.
    rewrite in_map_iff. intros (hit & <- & Hin).
    pose proof (Hlow Hv hit Hin) as Hname.
    unfold MutantScan_generate_hits in Hin.
    apply in_flat_map in Hin as (p & _ & Hin).
    apply in_flat_map in Hin as (o & _ & Hin).
    unfold mutant_hit in Hin.
    destruct ((plugin_args_verbosity self <? 5) && _); [destruct Hin|].
    destruct Hin as [<-|[]]. exact Hname.
  - exact Hlow.
  - intros Hshown Hpool Hobj.
    assert (Hin : In (pool_obj, object_obj, mutant, name)
                     (MutantScan_generate_hits ov self)).
    { unfold MutantScan_generate_hits. apply in_flat_map.
      exists pool_obj. split; [exact Hpool|]. apply in_flat_map.
      exists object_obj. split; [exact Hobj|].
      rewrite (Hyield Hshown). by left. }
    split; [exact Hin|].
    unfold MutantScan_render. by apply in_map.
Qed.

(** On the image the mutant at 0x5800 has no name: at verbosity 1 it
    yields nothing, at verbosity 5 it is yielded, it is among the hits of
    the plugin and its row is rendered. *)
Lemma mutant_hit_verbosity_witness :
  mutant_hit Image.the_overlay (Image.the_plugin 1)
    (Image.pool 0x5800 "Muta" 0x40 NonPagedPool 0) (Image.header 0x5800)
    = [] ∧
  mutant_hit Image.the_overlay (Image.the_plugin 5)
    (Image.pool 0x5800 "Muta" 0x40 NonPagedPool 0) (Image.header 0x5800)
    = [ (Image.pool 0x5800 "Muta" 0x40 NonPagedPool 0, Image.header 0x5800,
         mkObj "_KMUTANT" "P" 0x5830, None) ] ∧
  In (Image.pool 0x5800 "Muta" 0x40 NonPagedPool 0, Image.header 0x5800,
      mkObj "_KMUTANT" "P" 0x5830, None)
     (MutantScan_generate_hits Image.the_overlay (Image.the_plugin 5)) ∧
  In (mutant_row Image.the_overlay (Image.the_plugin 5)
        (Image.pool 0x5800 "Muta" 0x40 NonPagedPool 0, Image.header 0x5800,
         mkObj "_KMUTANT" "P" 0x5830, None))
     (MutantScan_render Image.the_overlay (Image.the_plugin 5)).
Proof.
  split; [|split].
  - apply (proj1 (mutant_hit_verbosity Image.the_overlay (Image.the_plugin 1)
                    (Image.pool 0x5800 "Muta" 0x40 NonPagedPool 0)
                    (Image.header 0x5800))).
    + vm_compute. reflexivity.
    + reflexivity.
  - apply (proj1 (proj2 (mutant_hit_verbosity Image.the_overlay
                    (Image.the_plugin 5)
                    (Image.pool 0x5800 "Muta" 0x40 NonPagedPool 0)
                    (Image.header 0x5800)))).
    vm_compute. discriminate.
  - apply (proj2 (proj2 (proj2 (proj2 (proj2
             (mutant_hit_verbosity Image.the_overlay (Image.the_plugin 5)
                (Image.pool 0x5800 "Muta" 0x40 NonPagedPool 0)
                (Image.header 0x5800))))))).
    + left. vm_compute. discriminate.
    + vm_compute. right. left. reflexivity.
    + vm_compute. left. reflexivity.
Defined.

Lemma format_cid_nonempty a b : format_cid a b ≠ "".
Proof. unfold format_cid. by destruct (str a). Qed.

(** C8, as amended.  [MutantScan.render] emits one row per hit.  The
    row's thread column is the hit's [OwnerThread] pointer.  The loop does
    not consult the profile's boundary: when the pointer is strictly
    greater than the fixed constant 0x80000000, the CID column is the
    process and thread identifiers of the [_ETHREAD] at that address,
    joined by a colon; otherwise, 0x80000000 itself included, the CID
    column is the empty string. *)
Theorem mutant_row_cid (ov : Overlay) (self : Plugin)
    (hit : POOL_HEADER * Obj * Obj * option string) :
  let mutant := hit.1.2 in
  let thread :=
    struct "_ETHREAD" (OwnerThread ov mutant)
           (plugin_kernel_address_space self) in
  let row := mutant_row ov self hit in
  mutant_thread row = OwnerThread ov mutant ∧
  (0x80000000 < OwnerThread ov mutant →
   mutant_cid row =
     format_cid (Cid_UniqueProcess ov thread) (Cid_UniqueThread ov thread) ∧
   mutant_cid row ≠ "") ∧
  (OwnerThread ov mutant ≤ 0x80000000 → mutant_cid row = "") ∧
  MutantScan_render ov self =
    map (mutant_row ov self) (MutantScan_generate_hits ov self) ∧
  length (MutantScan_render ov self) =
    length (MutantScan_generate_hits ov self).
Proof.
  destruct hit as [[[pool_obj object_obj] mutant] name]. simpl.
  unfold mutant_CID. rewrite Z.gtb_ltb.
  split; [reflexivity|]. split; [|split; [|split]].
  - intros Hk.
    destruct (Z.ltb_spec 0x80000000 (OwnerThread ov mutant)); [|lia].
    split; [reflexivity|apply format_cid_nonempty].
  - intros Hu.
    destruct (Z.ltb_spec 0x80000000 (OwnerThread ov mutant));
      [lia|reflexivity].
  - reflexivity.
  - unfold MutantScan_render. apply length_map.
Qed.

(** On the image the named mutant at 0x5000 is owned by the thread at
    0x81000000 and its row reads [4:12]; a mutant whose owner pointer is
    0x80000000 gets a blank CID. *)
Lemma mutant_row_cid_witness :
  mutant_cid
    (mutant_row Image.the_overlay (Image.the_plugin 1)
       (Image.pool 0x5000 "Muta" 0x40 NonPagedPool 0, Image.header 0x5000,
        mkObj "_KMUTANT" "P" 0x5030, Some "Global-Mutex")) = "4:12" ∧
  mutant_cid
    (mutant_row Image.the_overlay (Image.the_plugin 5)
       (Image.pool 0x5800 "Muta" 0x40 NonPagedPool 0, Image.header 0x5800,
        mkObj "_KMUTANT" "P" 0x5830, None)) = "".
Proof.
  split.
  - etransitivity.
    + apply (proj1 (proj2 (mutant_row_cid Image.the_overlay
               (Image.the_plugin 1)
               (Image.pool 0x5000 "Muta" 0x40 NonPagedPool 0,
                Image.header 0x5000, mkObj "_KMUTANT" "P" 0x5030,
                Some "Global-Mutex")))).
      vm_compute. reflexivity.
    + vm_compute. reflexivity.
  - apply (proj1 (proj2 (proj2 (mutant_row_cid Image.the_overlay
             (Image.the_plugin 5)
             (Image.pool 0x5800 "Muta" 0x40 NonPagedPool 0,
              Image.header 0x5800, mkObj "_KMUTANT" "P" 0x5830, None))))).
    vm_compute. discriminate.
Defined.


(** C8, as stated, fails.  With the kernel address range taken as the
    process scanner takes it, from the profile's boundary and with the
    boundary included, the claim asks for an identifier pair exactly for
    the pointers in that range.  On the image, whose profile leaves the
    boundary at 0x80000000, the unnamed mutant's owner pointer is
    0x80000000: inside the range, yet its CID is blank. *)
Lemma mutant_row_cid_counterexample :
  ¬ (∀ (ov : Overlay) (self : Plugin)
       (hit : POOL_HEADER * Obj * Obj * option string),
       let mutant := hit.1.2 in
       let thread :=
         struct "_ETHREAD" (OwnerThread ov mutant)
                (plugin_kernel_address_space self) in
       let row := mutant_row ov self hit in
       (in_kernel_range (plugin_profile self) (OwnerThread ov mutant) →
        mutant_cid row =
          format_cid (Cid_UniqueProcess ov thread)
                     (Cid_UniqueThread ov thread)) ∧
       (¬ in_kernel_range (plugin_profile self) (OwnerThread ov mutant) →
        mutant_cid row = "")).
Proof.
  intros Hclaim.
  destruct (Hclaim Image.the_overlay (Image.the_plugin 5)
              (Image.pool 0x5800 "Muta" 0x40 NonPagedPool 0,
               Image.header 0x5800, mkObj "_KMUTANT" "P" 0x5830, None))
    as [Hin _].
  assert (Hrange : in_kernel_range Image.the_profile 0x80000000).
  { vm_compute. discriminate. }
  specialize (Hin Hrange). vm_compute in Hin. discriminate Hin.
Qed.

(** The other side of the same divergence: under a 64-bit boundary the
    pointer 0x81000000 is a user address, and the row still carries an
    identifier pair. *)
Example mutant_cid_below_profile_boundary :
  let self :=
    mkPlugin (Image.profile_with_range_start 0xffff080000000000)
             Image.the_session Image.physical Image.kernel_as 1 in
  let mutant := mkObj "_KMUTANT" "P" 0x5030 in
  ¬ in_kernel_range (plugin_profile self)
      (OwnerThread Image.the_overlay mutant) ∧
  mutant_cid
    (mutant_row Image.the_overlay self
       (Image.pool 0x5000 "Muta" 0x40 NonPagedPool 0, Image.header 0x5000,
        mutant, Some "Global-Mutex")) = "4:12".
Proof.
  split.
  - vm_compute. intros H. apply H. reflexivity.
  - vm_compute. reflexivity.
Qed.

(** ** Further properties of the check chains *)

(** Unfolds a concrete check chain on a header into its comparisons. *)
Ltac chain_iff h :=
  unfold run_checks; simpl; destruct (pool_type h); simpl;
  rewrite ?andb_true_iff, ?String.eqb_eq, ?Z.geb_le, ?Z.gtb_ltb,
    ?Z.ltb_lt, ?Z.eqb_eq;
  intuition lia.

(** X1.  Each scanner accepts a pool header exactly when the header
    carries the scanner's own tag, meets the scanner's own size bound and,
    except for the symbolic-link scanner, has pool index 0.  A subclass
    keeps nothing of its parent's list: the driver scanner does not ask
    for the file tag, and the mutant scanner, a subclass of the driver
    scanner, accepts a declared size equal to the size of [_KMUTANT].  The
    pool state of the header plays no part. *)
Theorem scanner_chains_accept_exactly (kwargs : Kwargs) (h : POOL_HEADER) :
  let prof := kw_profile kwargs in
  (run_checks (checks (PoolScanFile_init kwargs)) h = true ↔
     Tag h = get_constant prof "FILE_POOLTAG" ∧
     get_obj_size prof "_FILE_OBJECT" ≤ pool_size h ∧ PoolIndex h = 0) ∧
  (run_checks (checks (PoolScanDriver_init kwargs)) h = true ↔
     Tag h = get_constant prof "DRIVER_POOLTAG" ∧
     get_obj_size prof "_DRIVER_OBJECT" < pool_size h ∧ PoolIndex h = 0) ∧
  (run_checks (checks (PoolScanSymlink_init kwargs)) h = true ↔
     Tag h = get_constant prof "SYMLINK_POOLTAG" ∧
     get_obj_size prof "_OBJECT_SYMBOLIC_LINK" ≤ pool_size h) ∧
  (run_checks (checks (PoolScanMutant_init kwargs)) h = true ↔
     Tag h = get_constant prof "MUTANT_POOLTAG" ∧
     get_obj_size prof "_KMUTANT" ≤ pool_size h ∧ PoolIndex h = 0) ∧
  (run_checks (checks (base (PoolScanProcess_init kwargs))) h = true ↔
     Tag h = get_constant prof "EPROCESS_POOLTAG" ∧
     get_obj_size prof "_EPROCESS" ≤ pool_size h ∧ PoolIndex h = 0).
Proof.
  intros prof. split; [|split; [|split; [|split]]]; chain_iff h.
Qed.

(** ** Further properties of the process scanner *)

(** [scan] is a filter: it yields one hit for every structurally valid
    object of every pool header the base scanner yields, and nothing
    else. *)
Lemma PoolScanProcess_scan_iff (ov : Overlay) (self : PoolScanProcess)
    offset maxlen hit :
  In hit (PoolScanProcess_scan ov self offset maxlen) ↔
  ∃ pool_obj object_header,
    In pool_obj (PoolScanner_scan (base self) offset maxlen) ∧
    In object_header (IterObject ov pool_obj "Process" true) ∧
    hit = (pool_obj, cast "_EPROCESS" (Body ov object_header)) ∧
    structurally_valid ov self hit.2.
Proof.
  unfold PoolScanProcess_scan. rewrite in_flat_map. split.
  - intros (pool_obj & Hpool & Hin). apply in_flat_map in Hin.
    destruct Hin as (object_header & Hobj & Hin).
    apply scan_object_In in Hin as [-> Hv].
    by exists pool_obj, object_header.
  - intros (pool_obj & object_header & Hpool & Hobj & -> & Hv).
    exists pool_obj. split; [exact Hpool|]. apply in_flat_map.
    exists object_header. split; [exact Hobj|].
    rewrite scan_object_accept by exact Hv. by left.
Qed.

(** X2.  For the scanner built by [PoolScanProcess.__init__], the hits of
    [scan] are exactly the structurally valid objects of the pool headers
    the base scan yields: each hit pairs such a header with the
    [_EPROCESS] view of one of its object bodies, and no valid object of a
    yielded header is left out. *)
Theorem PoolScanProcess_scan_exactly (ov : Overlay) (kwargs : Kwargs)
    (offset maxlen : option Z) (hit : POOL_HEADER * Obj) :
  let self := PoolScanProcess_init kwargs in
  In hit (PoolScanProcess_scan ov self offset maxlen) ↔
  ∃ pool_obj object_header,
    In pool_obj (PoolScanner_scan (base self) offset maxlen) ∧
    In object_header (IterObject ov pool_obj "Process" true) ∧
    hit = (pool_obj, cast "_EPROCESS" (Body ov object_header)) ∧
    Pcb_DirectoryTableBase ov hit.2 ≠ 0 ∧
    Pcb_DirectoryTableBase ov hit.2 `mod` dtb_alignment self = 0 ∧
    kernel self ≤ ActiveProcessLinks_Flink ov hit.2 ∧
    kernel self ≤ ActiveProcessLinks_Blink ov hit.2.
Proof.
  intros self. unfold PoolScanProcess_scan. rewrite in_flat_map. split.
  - intros (pool_obj & Hpool & Hin). apply in_flat_map in Hin.
    destruct Hin as (object_header & Hobj & Hin).
    apply scan_object_In in Hin as [-> Hv].
    exists pool_obj, object_header. by repeat split; try apply Hv.
  - intros (pool_obj & object_header & Hpool & Hobj & -> & Hv).
    exists pool_obj. split; [exact Hpool|]. apply in_flat_map.
    exists object_header. split; [exact Hobj|].
    rewrite scan_object_accept by exact Hv. by left.
Qed.

(** The two alignments: a multiple of the page size is a multiple of
    0x20. *)
Lemma page_aligned_pae_aligned d : d `mod` 0x1000 = 0 → d `mod` 0x20 = 0.
Proof.
  intros H. apply Z.mod_divide in H; [|lia]. apply Z.mod_divide; [lia|].
  destruct H as [q ->]. exists (q * 0x80). lia.
Qed.

(** X3.  Two process scanners built over the same profile and address
    space, the second in a session whose kernel address space reports PAE:
    whatever the first yields, the second yields too.  The PAE alignment
    only widens what is accepted. *)
Theorem pae_scan_accepts_more (ov : Overlay) (kwargs kwargs' : Kwargs)
    (offset maxlen : option Z) (hit : POOL_HEADER * Obj) :
  kw_profile kwargs' = kw_profile kwargs →
  kw_address_space kwargs' = kw_address_space kwargs →
  metadata (kernel_address_space (kw_session kwargs')) "pae" = true →
  In hit (PoolScanProcess_scan ov (PoolScanProcess_init kwargs)
            offset maxlen) →
  In hit (PoolScanProcess_scan ov (PoolScanProcess_init kwargs')
            offset maxlen).
Proof.
  intros Hprof Has Hpae. rewrite !PoolScanProcess_scan_iff.
  intros (pool_obj & object_header & Hpool & Hobj & Hhit & Hv).
  exists pool_obj, object_header.
  split; [|split; [exact Hobj|split; [exact Hhit|]]].
  - unfold PoolScanner_scan in *. simpl in *. by rewrite Hprof, Has.
  - destruct Hv as (Hnz & Hal & Hf & Hb).
    unfold structurally_valid, PoolScanProcess_init in *. simpl in *.
    rewrite Hprof, Hpae.
    repeat split; [exact Hnz| |exact Hf|exact Hb].
    destruct (metadata (kernel_address_space (kw_session kwargs)) "pae");
      [exact Hal|by apply page_aligned_pae_aligned].
Qed.

(** On the image, the process at 0x100 is yielded without PAE and so it
    is with PAE. *)
Lemma pae_scan_accepts_more_witness :
  In (Image.pool 0x100 "Proc" 0x300 NonPagedPool 0,
      mkObj "_EPROCESS" "P" 0x130)
     (PoolScanProcess_scan Image.the_overlay
        (PoolScanProcess_init Image.pae_kwargs) None None).
Proof.
  apply (pae_scan_accepts_more Image.the_overlay Image.kwargs
           Image.pae_kwargs None None).
  - reflexivity.
  - reflexivity.
  - reflexivity.
  - vm_compute. left. reflexivity.
Defined.

(** X4.  The boundary of a scanner built by [PoolScanProcess.__init__] is
    never 0, because a resolved 0 is replaced by the default.  When the
    resolved constant is not negative the boundary is positive, so an
    object whose [Flink] or [Blink] reads as null yields nothing. *)
Theorem null_list_pointer_rejected (ov : Overlay) (kwargs : Kwargs)
    (pool_obj : POOL_HEADER) (object_header : Obj) :
  let self := PoolScanProcess_init kwargs in
  let eprocess := cast "_EPROCESS" (Body ov object_header) in
  kernel self ≠ 0 ∧
  ((∀ b, get_constant_object (kw_profile kwargs) "MmSystemRangeStart"
           = Some b → 0 ≤ b) →
   0 < kernel self ∧
   (ActiveProcessLinks_Flink ov eprocess = 0 ∨
    ActiveProcessLinks_Blink ov eprocess = 0 →
    scan_object ov self pool_obj object_header = [])).
Proof.
  intros self eprocess.
  assert (Hk : kernel self =
               py_or (get_constant_object (kw_profile kwargs)
                        "MmSystemRangeStart") 0x80000000) by reflexivity.
  assert (Hnz : kernel self ≠ 0).
  { rewrite Hk. unfold py_or.
    destruct (get_constant_object _ _) as [b|]; [|lia].
    destruct (Z.eqb_spec b 0); lia. }
  split; [exact Hnz|]. intros Hpos.
  assert (H0 : 0 < kernel self).
  { revert Hnz. rewrite Hk. unfold py_or.
    destruct (get_constant_object _ _) as [b|] eqn:E; [|lia].
    specialize (Hpos b eq_refl). destruct (Z.eqb_spec b 0); lia. }
  split; [exact H0|]. intros Hnull.
  apply scan_object_reject. intros (_ & _ & Hf & Hb).
  fold eprocess in Hf, Hb. lia.
Qed.

(** With the boundary resolved to 0xffff080000000000 and every [Flink]
    reading as null, the process at 0x100 yields nothing. *)
Lemma null_list_pointer_rejected_witness :
  scan_object ImageExt.null_flink_overlay
    (PoolScanProcess_init
       (mkKwargs (Image.profile_with_range_start 0xffff080000000000)
                 Image.the_session Image.physical))
    (Image.pool 0x100 "Proc" 0x300 NonPagedPool 0) (Image.header 0x100)
    = [].
Proof.
  apply (proj2 (null_list_pointer_rejected ImageExt.null_flink_overlay
           (mkKwargs (Image.profile_with_range_start 0xffff080000000000)
                     Image.the_session Image.physical)
           (Image.pool 0x100 "Proc" 0x300 NonPagedPool 0)
           (Image.header 0x100))).
  - intros b [= <-]. lia.
  - left. reflexivity.
Defined.

(** ** Further properties of [PSScan.collect] *)

Lemma runs_exactly_ret {A} (a : A) : runs_exactly (m_ret a) a [].
Proof. intros log. unfold m_ret. by rewrite app_nil_r. Qed.

Lemma runs_exactly_call e : runs_exactly (call e) tt [e].
Proof. by intros log. Qed.

Lemma runs_exactly_bind {A B} (m : M A) (k : A → M B) a b evs1 evs2 :
  runs_exactly m a evs1 → runs_exactly (k a) b evs2 →
  runs_exactly (m_bind m k) b (evs1 ++ evs2).
Proof.
  intros Hm Hk log. unfold m_bind. rewrite Hm, Hk. by rewrite app_assoc.
Qed.

Lemma runs_exactly_for_each {A B} (xs : list A) (body : A → M (list B))
    (g : A → list B) (h : A → list Event) :
  (∀ x, In x xs → runs_exactly (body x) (g x) (h x)) →
  runs_exactly (for_each xs body) (flat_map g xs) (flat_map h xs).
Proof.
  induction xs as [|x xs IH]; intros Hbody; simpl.
  - apply runs_exactly_ret.
  - eapply runs_exactly_bind; [apply Hbody; by left|].
    rewrite <- (app_nil_r (flat_map h xs)).
    eapply runs_exactly_bind; [|apply runs_exactly_ret].
    apply IH. intros y Hy. apply Hbody. by right.
Qed.

Lemma flat_map_nil {A B} (l : list A) : flat_map (λ _, @nil B) l = [].
Proof. by induction l. Qed.

Lemma flat_map_ext_In {A B} (f g : A → list B) (l : list A) :
  (∀ x, In x l → f x = g x) → flat_map f l = flat_map g l.
Proof.
  induction l as [|x l IH]; intros H; simpl; [reflexivity|].
  rewrite H by (by left). f_equal. apply IH. intros y Hy. apply H. by right.
Qed.

Section CollectCalls.

Variable ov : Overlay.
Variable self : PSScan.

Lemma collect_hit_exactly run ke kp hit :
  let pslist := plugins_pslist (ps_session self) in
  runs_exactly (collect_hit ov pslist run ke kp hit)
    [ps_row ov ke kp hit.1 hit.2 (virtual_eprocess_of pslist run hit.2)]
    (if String.eqb (run_type run) "PhysicalAS"
     then [EvTranslate hit.2] else []).
Proof.
  intros pslist. destruct hit as [pool_obj eprocess].
  unfold collect_hit, virtual_eprocess_of. simpl.
  destruct (String.eqb (run_type run) "PhysicalAS").
  - change [EvTranslate eprocess] with (([EvTranslate eprocess] ++ []) ++ []).
    eapply runs_exactly_bind; [|apply runs_exactly_ret].
    eapply runs_exactly_bind; [apply runs_exactly_call|].
    apply runs_exactly_ret.
  - change (@nil Event) with (@nil Event ++ []).
    eapply runs_exactly_bind; apply runs_exactly_ret.
Qed.

(** The scan loop returns one row per candidate and makes one scan call
    per run, followed by one translation per hit of a physical run. *)
Lemma collect_loop_exactly ke kp :
  let pslist := plugins_pslist (ps_session self) in
  runs_exactly
    (for_each (generate_memory_ranges self)
       (λ run,
          let scanner := process_scanner self run in
          hits <~ call_scan ov scanner (run_start run) (run_length run) ;;
          for_each hits (collect_hit ov pslist run ke kp)))
    (map (λ c, ps_row ov ke kp c.2.1 c.2.2
                 (virtual_eprocess_of pslist c.1 c.2.2))
         (candidates ov self))
    (flat_map (run_calls ov self) (generate_memory_ranges self)).
Proof.
  intros pslist. unfold candidates.
  rewrite <- (flat_map_map_pair
    (λ run, PoolScanProcess_scan ov (process_scanner self run)
              (Some (run_start run)) (Some (run_length run)))
    (λ run hit, ps_row ov ke kp hit.1 hit.2
                  (virtual_eprocess_of pslist run hit.2))).
  apply runs_exactly_for_each. intros run _. cbv zeta.
  unfold run_calls.
  set (hits := PoolScanProcess_scan ov (process_scanner self run)
                 (Some (run_start run)) (Some (run_length run))).
  change (EvScan ?vm ?o ?n :: ?evs) with (([EvScan vm o n] ++ []) ++ evs).
  eapply runs_exactly_bind.
  { eapply runs_exactly_bind; [apply runs_exactly_call|].
    apply runs_exactly_ret. }
  fold hits. rewrite <- flat_map_singleton.
  replace (if String.eqb (run_type run) "PhysicalAS"
           then map (λ hit, EvTranslate hit.2) hits else [])
    with (flat_map (λ hit : POOL_HEADER * Obj,
                      if String.eqb (run_type run) "PhysicalAS"
                      then [EvTranslate hit.2] else []) hits).
  - apply runs_exactly_for_each. intros hit _. apply collect_hit_exactly.
  - destruct (String.eqb (run_type run) "PhysicalAS").
    + apply flat_map_singleton.
    + apply flat_map_nil.
Qed.

(** The rows and the calls of [collect], in full. *)
Lemma collect_exactly log :
  let pslist := plugins_pslist (ps_session self) in
  let known := known_sets ov (list_eprocess pslist log) in
  collect ov self log =
    (map (λ c, ps_row ov known.1 known.2 c.2.1 c.2.2
                 (virtual_eprocess_of pslist c.1 c.2.2))
         (candidates ov self),
     log ++ EvListEprocess
         :: flat_map (run_calls ov self) (generate_memory_ranges self)).
Proof.
  intros pslist known. unfold collect, m_bind, call_list_eprocess.
  fold pslist. fold known. destruct known as [ke kp].
  etransitivity; [apply (collect_loop_exactly ke kp)|].
  simpl. by rewrite <- app_assoc.
Qed.

End CollectCalls.

(** X5.  The status column of every row of [collect] is one of the four
    strings blank, [E], [P] and [EP]: [E] always comes before [P] and no
    flag is repeated. *)
Theorem collect_stat_values (ov : Overlay) (self : PSScan)
    (log : list Event) (row : PsRow) :
  In row (collect ov self log).1 →
  stat row = "" ∨ stat row = "E" ∨ stat row = "P" ∨ stat row = "EP".
Proof.
  rewrite collect_exactly. simpl. rewrite in_map_iff.
  intros (c & <- & _). simpl. unfold status_flags.
  destruct (bool_decide _); destruct (bool_decide _); simpl; tauto.
Qed.

(** On the image, the first row has status [EP]. *)
Lemma collect_stat_values_witness :
  let row :=
    ps_row Image.the_overlay
      {[ mkObj "_EPROCESS" "K" 0x80000130 ]} {[ 4 ]}
      (Image.pool 0x100 "Proc" 0x300 NonPagedPool 0)
      (mkObj "_EPROCESS" "P" 0x130) (mkObj "_EPROCESS" "K" 0x80000130) in
  stat row = "" ∨ stat row = "E" ∨ stat row = "P" ∨ stat row = "EP".
Proof.
  apply (collect_stat_values Image.the_overlay Image.the_psscan []).
  vm_compute. left. reflexivity.
Defined.

(** X6.  The calls of [collect], in full: the one [list_eprocess], then
    for each memory range in order one scan of that range's address space
    over its start and length, followed, when the range is physical, by
    one address translation per hit in scan order.  A range that is not
    physical causes no translation. *)
Theorem collect_calls_exactly (ov : Overlay) (self : PSScan)
    (log : list Event) :
  (collect ov self log).2 =
    log ++ EvListEprocess
        :: flat_map
             (λ run,
                EvScan (as_name (run_address_space run)) (run_start run)
                       (run_length run)
                :: (if String.eqb (run_type run) "PhysicalAS"
                    then map (λ hit, EvTranslate hit.2)
                             (PoolScanProcess_scan ov
                                (process_scanner self run)
                                (Some (run_start run))
                                (Some (run_length run)))
                    else []))
             (generate_memory_ranges self).
Proof.
  unfold collect, m_bind, call_list_eprocess.
  destruct (known_sets ov _) as [ke kp].
  pose proof (collect_loop_exactly ov self ke kp (log ++ [EvListEprocess]))
    as Hloop.
  cbv zeta in Hloop. unfold m_bind in Hloop. rewrite Hloop. simpl.
  by rewrite <- app_assoc.
Qed.

(** X7.  When the lister finds no process, no row of [collect] carries a
    flag: every scanned process is reported, with a blank status. *)
Theorem collect_blind_lister (ov : Overlay) (self : PSScan)
    (log : list Event) :
  list_eprocess (plugins_pslist (ps_session self)) log = [] →
  length (collect ov self log).1 = length (candidates ov self) ∧
  ∀ row, In row (collect ov self log).1 → stat row = "".
Proof.
  intros Hnone. rewrite collect_exactly. rewrite Hnone. simpl.
  split; [apply length_map|].
  intros row. rewrite in_map_iff. intros (c & <- & _). reflexivity.
Qed.

(** On the image scanned with the lister that knows nothing, both rows
    are there and both are blank. *)
Lemma collect_blind_lister_witness :
  length (collect Image.the_overlay ImageExt.blind_psscan []).1 = 2%nat ∧
  map stat (collect Image.the_overlay ImageExt.blind_psscan []).1
    = [""; ""].
Proof.
  destruct (collect_blind_lister Image.the_overlay ImageExt.blind_psscan [])
    as [Hlen Hblank]; [reflexivity|].
  split; [rewrite Hlen; reflexivity|reflexivity].
Defined.

(** X8.  When no memory range is physical, [collect] translates nothing:
    its calls are the listing and one scan per range, the virtual offset
    of a row is the offset of the scanned process itself, and no row
    carries [E] without [P], since a process found in the listing has its
    identifier in the listing too. *)
Theorem collect_virtual_runs (ov : Overlay) (self : PSScan)
    (log : list Event) :
  (∀ run, In run (generate_memory_ranges self) →
          run_type run ≠ "PhysicalAS") →
  (collect ov self log).2 =
    log ++ EvListEprocess
        :: map (λ run, EvScan (as_name (run_address_space run))
                         (run_start run) (run_length run))
               (generate_memory_ranges self) ∧
  ∀ row, In row (collect ov self log).1 →
         offset_v row = obj_offset (offset_p row) ∧ stat row ≠ "E".
Proof.
  intros Hvirt. rewrite collect_exactly. simpl. split.
  - f_equal. f_equal. rewrite <- flat_map_singleton.
    apply flat_map_ext_In. intros run Hrun. unfold run_calls.
    apply Hvirt in Hrun. apply String.eqb_neq in Hrun. by rewrite Hrun.
  - intros row. rewrite in_map_iff. intros ([run hit] & <- & Hc).
    assert (Hrun : In run (generate_memory_ranges self)).
    { unfold candidates in Hc. apply in_flat_map in Hc.
      destruct Hc as (run' & Hrun' & Hc). apply in_map_iff in Hc.
      by destruct Hc as (? & [= <- <-] & _). }
    apply Hvirt in Hrun. apply String.eqb_neq in Hrun.
    unfold virtual_eprocess_of. simpl. rewrite Hrun.
    split; [reflexivity|].
    unfold status_flags.
    destruct (known_sets_elem ov
                (list_eprocess (plugins_pslist (ps_session self)) log))
      as [Hk1 Hk2].
    destruct (bool_decide_reflect
                (hit.2 ∈ (known_sets ov
                   (list_eprocess (plugins_pslist (ps_session self))
                      log)).1)) as [Hin|Hout]; simpl.
    + rewrite bool_decide_eq_true_2; [discriminate|].
      apply Hk2, in_map, Hk1, Hin.
    + destruct (bool_decide _); discriminate.
Qed.

(** On the kernel address space scanned as a virtual run, the calls are
    the listing and one scan. *)
Lemma collect_virtual_runs_witness :
  (collect ImageExt.virtual_overlay ImageExt.virtual_psscan []).2 =
    [EvListEprocess; EvScan "K" 0x80000000 0x8000].
Proof.
  apply (proj1 (collect_virtual_runs ImageExt.virtual_overlay
                  ImageExt.virtual_psscan [] ltac:(
                    intros run [<-|[]]; vm_compute; discriminate))).
Defined.

Lemma known_sets_ext (ov : Overlay) (tasks tasks' : list Obj) :
  (∀ x, In x tasks ↔ In x tasks') → known_sets ov tasks = known_sets ov tasks'.
Proof.
  intros Hsame.
  destruct (known_sets_elem ov tasks) as [H1 H2].
  destruct (known_sets_elem ov tasks') as [H1' H2'].
  destruct (known_sets ov tasks) as [ke kp], (known_sets ov tasks')
    as [ke' kp']. simpl in *.
  f_equal; apply set_eq; intros y.
  - by rewrite H1, H1'.
  - rewrite H2, H2', !in_map_iff.
    split; intros (x & <- & Hx); exists x; split; [done| |done|];
      by apply Hsame.
Qed.

(** X9.  [collect] uses the listing as a set: two listers that return the
    same processes, in any order and with any repetition, give the same
    rows. *)
Theorem collect_listing_as_set (ov : Overlay) (prof : Profile)
    (kernel_as : AddressSpace) (ranges : list Run)
    (listing listing' : list Event → list Obj) (translate : Obj → Obj)
    (log : list Event) :
  (∀ x, In x (listing log) ↔ In x (listing' log)) →
  (collect ov
     (mkPSScan prof (mkSession kernel_as (mkPsList listing translate))
               ranges) log).1 =
  (collect ov
     (mkPSScan prof (mkSession kernel_as (mkPsList listing' translate))
               ranges) log).1.
Proof.
  intros Hsame. rewrite !collect_exactly. simpl.
  by rewrite (known_sets_ext ov _ _ Hsame).
Qed.

(** On the image, listing the known process three times changes no
    row. *)
Lemma collect_listing_as_set_witness :
  (collect Image.the_overlay
     (mkPSScan Image.the_profile
        (mkSession Image.kernel_as
           (mkPsList (λ _, [mkObj "_EPROCESS" "K" 0x80000130])
                     (λ e, mkObj "_EPROCESS" "K"
                             (obj_offset e + 0x80000000))))
        [mkRun 0 0x8000 Image.physical "PhysicalAS"]) []).1 =
  (collect Image.the_overlay
     (mkPSScan Image.the_profile
        (mkSession Image.kernel_as
           (mkPsList (λ _, [mkObj "_EPROCESS" "K" 0x80000130;
                            mkObj "_EPROCESS" "K" 0x80000130;
                            mkObj "_EPROCESS" "K" 0x80000130])
                     (λ e, mkObj "_EPROCESS" "K"
                             (obj_offset e + 0x80000000))))
        [mkRun 0 0x8000 Image.physical "PhysicalAS"]) []).1.
Proof.
  apply collect_listing_as_set. intros x. simpl. tauto.
Defined.

(** ** Further properties of the object plugins *)

(** An unwindowed scan yields the headers of the address space that pass
    the scanner's chain. *)
Lemma PoolScanner_scan_all (scanner : PoolScanner) (h : POOL_HEADER) :
  In h (PoolScanner_scan scanner None None) ↔
  In h (as_pool_headers (address_space scanner)) ∧
  run_checks (checks scanner) h = true.
Proof. unfold PoolScanner_scan. rewrite filter_In. reflexivity. Qed.

Lemma scanned_objects_In (ov : Overlay) scanner kind pool_obj object_obj :
  In (pool_obj, object_obj) (scanned_objects ov scanner kind) ↔
  In pool_obj (PoolScanner_scan scanner None None) ∧
  In object_obj (IterObject ov pool_obj kind true).
Proof.
  unfold scanned_objects. rewrite in_flat_map. split.
  - intros (p & Hp & Hin). apply in_map_iff in Hin.
    by destruct Hin as (o & [= <- <-] & Ho).
  - intros [Hp Ho]. exists pool_obj. split; [exact Hp|].
    apply in_map_iff. by exists object_obj.
Qed.

(** A loop nest whose body yields exactly one hit per object. *)
Lemma flat_map_objects {A} (ov : Overlay) scanner kind
    (f : POOL_HEADER → Obj → A) :
  flat_map (λ pool_obj,
              flat_map (λ object_obj, [f pool_obj object_obj])
                       (IterObject ov pool_obj kind true))
           (PoolScanner_scan scanner None None)
  = map (λ c, f c.1 c.2) (scanned_objects ov scanner kind).
Proof.
  unfold scanned_objects. rewrite <- flat_map_map_pair.
  apply flat_map_ext. intros pool_obj. apply flat_map_singleton.
Qed.

(** X10.  The hits of [FileScan.generate_hits] are exactly the file
    objects, one per object header of a pool header the file scanner
    yields, whose name resolves to a non-empty string and whose device
    type is valid: no such object is left out, and the file object of a
    hit sits at the end of its object header in the scanned address
    space. *)
Theorem file_hits_exactly (ov : Overlay) (self : Plugin)
    (hit : POOL_HEADER * Obj * Obj) :
  In hit (FileScan_generate_hits ov self) ↔
  ∃ pool_obj object_obj,
    In pool_obj
       (PoolScanner_scan (PoolScanFile_init (scanner_kwargs self))
          None None) ∧
    In object_obj (IterObject ov pool_obj "File" true) ∧
    hit = (pool_obj, object_obj,
           mkObj "_FILE_OBJECT" (as_name (plugin_address_space self))
                 (obj_end ov object_obj)) ∧
    truthy (FileName_v ov hit.2 (plugin_kernel_address_space self)) = true ∧
    DeviceType_is_valid ov
      (DeviceObject_deref ov hit.2
         (kernel_address_space (plugin_session self))) = true.
Proof.
  unfold FileScan_generate_hits. rewrite in_flat_map. split.
  - intros (pool_obj & Hp & Hin). apply in_flat_map in Hin.
    destruct Hin as (object_obj & Ho & Hin).
    apply file_hit_In in Hin as (-> & Hname & Hdev).
    by exists pool_obj, object_obj.
  - intros (pool_obj & object_obj & Hp & Ho & -> & Hname & Hdev).
    exists pool_obj. split; [exact Hp|]. apply in_flat_map.
    exists object_obj. split; [exact Ho|].
    unfold file_hit. simpl in Hname, Hdev. unfold struct.
    rewrite Hname, Hdev. by left.
Qed.

Section MutantVerbosity.

Variable ov : Overlay.
Variables (prof : Profile) (sess : Session) (vm kvm : AddressSpace).

Let plugin (v : Z) : Plugin := mkPlugin prof sess vm kvm v.

Lemma mutant_hit_threshold v v' pool_obj object_obj :
  (v <? 5) = (v' <? 5) →
  mutant_hit ov (plugin v) pool_obj object_obj =
  mutant_hit ov (plugin v') pool_obj object_obj.
Proof. unfold mutant_hit. simpl. by intros ->. Qed.

Lemma mutant_hit_verbose v v' pool_obj object_obj hit :
  5 ≤ v' →
  In hit (mutant_hit ov (plugin v) pool_obj object_obj) →
  In hit (mutant_hit ov (plugin v') pool_obj object_obj).
Proof.
  intros Hv'. unfold mutant_hit. simpl.
  destruct (Z.ltb_spec v' 5); [lia|]. simpl.
  destruct ((v <? 5) && _); [intros []|done].
Qed.

Lemma mutant_hits_threshold v v' :
  (v <? 5) = (v' <? 5) →
  MutantScan_generate_hits ov (plugin v) =
  MutantScan_generate_hits ov (plugin v').
Proof.
  intros Hsame. unfold MutantScan_generate_hits.
  apply flat_map_ext. intros pool_obj. apply flat_map_ext. intros object_obj.
  by apply mutant_hit_threshold.
Qed.

Lemma mutant_hits_verbose v v' hit :
  5 ≤ v' →
  In hit (MutantScan_generate_hits ov (plugin v)) →
  In hit (MutantScan_generate_hits ov (plugin v')).
Proof.
  intros Hv'. unfold MutantScan_generate_hits. rewrite !in_flat_map.
  intros (pool_obj & Hp & Hin). exists pool_obj. split; [exact Hp|].
  apply in_flat_map in Hin as (object_obj & Ho & Hin).
  apply in_flat_map. exists object_obj. split; [exact Ho|].
  by apply (mutant_hit_verbose v).
Qed.

End MutantVerbosity.

(** X11.  Between two mutant plugins that differ in verbosity only,
    raising the verbosity never removes a hit, and the hits depend on the
    verbosity only through which side of 5 it is on. *)
Theorem mutant_hits_grow_with_verbosity (ov : Overlay) (prof : Profile)
    (sess : Session) (vm kvm : AddressSpace) (v v' : Z) :
  (v ≤ v' →
   ∀ hit, In hit (MutantScan_generate_hits ov (mkPlugin prof sess vm kvm v)) →
          In hit (MutantScan_generate_hits ov
                    (mkPlugin prof sess vm kvm v'))) ∧
  ((v < 5 ↔ v' < 5) →
   MutantScan_generate_hits ov (mkPlugin prof sess vm kvm v) =
   MutantScan_generate_hits ov (mkPlugin prof sess vm kvm v')).
Proof.
  split.
  - intros Hle hit Hin. destruct (Z.ltb_spec v' 5) as [Hlow|Hhigh].
    + rewrite <- (mutant_hits_threshold ov prof sess vm kvm v v');
        [exact Hin|].
      destruct (Z.ltb_spec v 5), (Z.ltb_spec v' 5); (reflexivity || lia).
    + by apply (mutant_hits_verbose ov prof sess vm kvm v).
  - intros Hside. apply mutant_hits_threshold.
    destruct (Z.ltb_spec v 5), (Z.ltb_spec v' 5); (reflexivity || lia).
Qed.

(** On the second image, the named mutant found at verbosity 1 is found
    at verbosity 5 too, and verbosities 1 and 4 give the same hits. *)
Lemma mutant_hits_grow_with_verbosity_witness :
  In (Image.pool 0x5000 "Muta" 0x40 NonPagedPool 0, Image.header 0x5000,
      mkObj "_KMUTANT" "P" 0x5030, Some "Global-Mutex")
     (MutantScan_generate_hits Image.the_overlay (ImageExt.the_plugin 5)) ∧
  MutantScan_generate_hits Image.the_overlay (ImageExt.the_plugin 1) =
  MutantScan_generate_hits Image.the_overlay (ImageExt.the_plugin 4).
Proof.
  split.
  - apply (proj1 (mutant_hits_grow_with_verbosity Image.the_overlay
             Image.the_profile Image.the_session ImageExt.physical
             Image.kernel_as 1 5)).
    + lia.
    + vm_compute. left. reflexivity.
  - apply (proj2 (mutant_hits_grow_with_verbosity Image.the_overlay
             Image.the_profile Image.the_session ImageExt.physical
             Image.kernel_as 1 4)).
    lia.
Defined.

(** X12.  At verbosity 5 or more [MutantScan] suppresses nothing: there
    is one hit, and one row, for every object of every pool header the
    mutant scanner yields, in scan order, named or not. *)
Theorem mutant_hits_all_when_verbose (ov : Overlay) (self : Plugin) :
  5 ≤ plugin_args_verbosity self →
  MutantScan_generate_hits ov self =
    map (λ c, (c.1, c.2,
               mkObj "_KMUTANT" (as_name (plugin_address_space self))
                     (obj_end ov c.2),
               NameInfo_Name_v ov c.2 (plugin_kernel_address_space self)))
        (scanned_objects ov (PoolScanMutant_init (scanner_kwargs self))
           "Mutant") ∧
  length (MutantScan_render ov self) =
    length (scanned_objects ov (PoolScanMutant_init (scanner_kwargs self))
              "Mutant").
Proof.
  intros Hv.
  assert (Hhits : MutantScan_generate_hits ov self =
    map (λ c, (c.1, c.2,
               mkObj "_KMUTANT" (as_name (plugin_address_space self))
                     (obj_end ov c.2),
               NameInfo_Name_v ov c.2 (plugin_kernel_address_space self)))
        (scanned_objects ov (PoolScanMutant_init (scanner_kwargs self))
           "Mutant")).
  { rewrite <- (flat_map_objects ov _ "Mutant"
      (λ p o, (p, o,
               mkObj "_KMUTANT" (as_name (plugin_address_space self))
                     (obj_end ov o),
               NameInfo_Name_v ov o (plugin_kernel_address_space self)))).
    unfold MutantScan_generate_hits.
    apply flat_map_ext. intros pool_obj. apply flat_map_ext.
    intros object_obj. unfold mutant_hit.
    destruct (Z.ltb_spec (plugin_args_verbosity self) 5); [lia|].
    reflexivity. }
  split; [exact Hhits|].
  unfold MutantScan_render. by rewrite length_map, Hhits, length_map.
Qed.

(** On the second image at verbosity 5 both mutants give a row, the
    unnamed one included. *)
Lemma mutant_hits_all_when_verbose_witness :
  length (MutantScan_render Image.the_overlay (ImageExt.the_plugin 5))
    = 2%nat.
Proof.
  rewrite (proj2 (mutant_hits_all_when_verbose Image.the_overlay
                    (ImageExt.the_plugin 5) ltac:(vm_compute; discriminate))).
  reflexivity.
Defined.

(** X13.  [DriverScan] filters nothing after the check chain: it gives one
    hit, and one row, for every object of every pool header the driver
    scanner yields, whether or not the object's name resolves.  Every hit
    comes from a pool header of the scanned address space with the driver
    tag, pool index 0 and a declared size strictly greater than the size
    of [_DRIVER_OBJECT]; its driver object starts where the object header
    ends and its extension starts where the driver object ends. *)
Theorem driver_hits_exactly (ov : Overlay) (dl : DriverLinkOverlay)
    (self : Plugin) :
  let prof := plugin_profile self in
  let scanner := PoolScanDriver_init (scanner_kwargs self) in
  DriverScan_generate_hits ov self =
    map (λ c,
           let driver_obj :=
             mkObj "_DRIVER_OBJECT" (as_name (plugin_address_space self))
                   (obj_end ov c.2) in
           (c.1, c.2, driver_obj,
            mkObj "_DRIVER_EXTENSION" (as_name (plugin_address_space self))
                  (obj_end ov driver_obj),
            NameInfo_Name_v ov c.2 (plugin_kernel_address_space self)))
        (scanned_objects ov scanner "Driver") ∧
  length (DriverScan_render ov dl self) =
    length (scanned_objects ov scanner "Driver") ∧
  ∀ pool_obj object_obj,
    In (pool_obj, object_obj) (scanned_objects ov scanner "Driver") →
    In pool_obj (as_pool_headers (plugin_address_space self)) ∧
    Tag pool_obj = get_constant prof "DRIVER_POOLTAG" ∧
    get_obj_size prof "_DRIVER_OBJECT" < pool_size pool_obj ∧
    PoolIndex pool_obj = 0.
Proof.
  intros prof scanner.
  assert (Hhits : DriverScan_generate_hits ov self =
    map (λ c,
           let driver_obj :=
             mkObj "_DRIVER_OBJECT" (as_name (plugin_address_space self))
                   (obj_end ov c.2) in
           (c.1, c.2, driver_obj,
            mkObj "_DRIVER_EXTENSION" (as_name (plugin_address_space self))
                  (obj_end ov driver_obj),
            NameInfo_Name_v ov c.2 (plugin_kernel_address_space self)))
        (scanned_objects ov scanner "Driver")).
  { exact (flat_map_objects ov scanner "Driver"
      (λ p o,
         let driver_obj :=
           mkObj "_DRIVER_OBJECT" (as_name (plugin_address_space self))
                 (obj_end ov o) in
         (p, o, driver_obj,
          mkObj "_DRIVER_EXTENSION" (as_name (plugin_address_space self))
                (obj_end ov driver_obj),
          NameInfo_Name_v ov o (plugin_kernel_address_space self)))). }
  split; [exact Hhits|]. split.
  - unfold DriverScan_render. by rewrite length_map, Hhits, length_map.
  - intros pool_obj object_obj Hin.
    apply scanned_objects_In in Hin as [Hp _].
    apply PoolScanner_scan_all in Hp as [Hh Hc].
    split; [exact Hh|]. revert Hc. subst scanner prof. chain_iff pool_obj.
Qed.

(** On the second image the driver allocation at 0x6000 declares exactly
    the size of [_DRIVER_OBJECT] and the one at 0x6800 more: only the
    second is scanned, and it gives the one row although its name does not
    resolve. *)
Lemma driver_hits_exactly_witness :
  length (DriverScan_render Image.the_overlay ImageExt.the_links
            (ImageExt.the_plugin 1)) = 1%nat ∧
  0xa8 < 0x1a0.
Proof.
  split.
  - rewrite (proj1 (proj2 (driver_hits_exactly Image.the_overlay
               ImageExt.the_links (ImageExt.the_plugin 1)))).
    reflexivity.
  - apply (proj2 (proj2 (driver_hits_exactly Image.the_overlay
             ImageExt.the_links (ImageExt.the_plugin 1)))
             (Image.pool 0x6800 "Driv" 0x1a0 FreePoolType 0)
             (Image.header 0x6800)).
    vm_compute. left. reflexivity.
Defined.

(** X14.  [SymLinkScan] filters nothing after the check chain: it gives
    one row for every object of every pool header the symlink scanner
    yields, in scan order.  A creation time that reads as zero leaves the
    row's creation column blank and the row is still there; any other
    creation time is shown as it is. *)
Theorem symlink_rows_keep_blank_time (ov : Overlay) (dl : DriverLinkOverlay)
    (self : Plugin) :
  let scanner := PoolScanSymlink_init (scanner_kwargs self) in
  let link_of (o : Obj) :=
    mkObj "_OBJECT_SYMBOLIC_LINK" (as_name (plugin_address_space self))
          (obj_end ov o) in
  Forall2
    (λ c row,
       symlink_offset_p row = obj_end ov c.2 ∧
       (CreationTime dl (link_of c.2) = 0 →
        symlink_creation_time row = None) ∧
       (CreationTime dl (link_of c.2) ≠ 0 →
        symlink_creation_time row = Some (CreationTime dl (link_of c.2))))
    (scanned_objects ov scanner "SymbolicLink")
    (SymLinkScan_render ov dl self).
Proof.
  intros scanner link_of.
  assert (Hhits : SymLinkScan_generate_hits ov self =
    map (λ c, (c.1, c.2, link_of c.2,
               NameInfo_Name_v ov c.2 (plugin_kernel_address_space self)))
        (scanned_objects ov scanner "SymbolicLink")).
  { exact (flat_map_objects ov scanner "SymbolicLink"
      (λ p o, (p, o, link_of o,
               NameInfo_Name_v ov o (plugin_kernel_address_space self)))). }
  unfold SymLinkScan_render. rewrite Hhits, map_map.
  apply Forall2_map_self. intros c _. simpl. unfold or_blank.
  split; [reflexivity|].
  destruct (Z.eqb_spec (CreationTime dl (link_of c.2)) 0); split; intros;
    (reflexivity || contradiction).
Qed.

(** On the second image the symbolic link has no creation time: its row
    is there, with a blank creation column. *)
Lemma symlink_rows_keep_blank_time_witness :
  map symlink_creation_time
      (SymLinkScan_render Image.the_overlay ImageExt.the_links
         (ImageExt.the_plugin 1)) = [None].
Proof.
  pose proof (symlink_rows_keep_blank_time Image.the_overlay
                ImageExt.the_links (ImageExt.the_plugin 1)) as H.
  cbv zeta in H.
  destruct (SymLinkScan_render Image.the_overlay ImageExt.the_links
              (ImageExt.the_plugin 1)) as [|row rows] eqn:E;
    [vm_compute in E; discriminate E|].
  change (scanned_objects Image.the_overlay
            (PoolScanSymlink_init (scanner_kwargs (ImageExt.the_plugin 1)))
            "SymbolicLink")
    with [(Image.pool 0x7000 "Symb" 0x40 PagedPool 3, Image.header 0x7000)]
    in H.
  inversion H as [|c r cs rs (_ & Hblank & _) Hrest]; subst.
  inversion Hrest; subst. simpl. f_equal. apply Hblank. reflexivity.
Defined.
